(** * chatgpt_wordgen: the prompt batch driver of [src/main.py]

    A shallow embedding of [load_prompts], [save_responses] and the
    processing loop of [main], and the properties the specification
    states about them.

    Modelling conventions.
    - A Python [str] is a sequence of Unicode code points: [list N]. The
      numbers above 0x10FFFF stand for no character; a text that holds one
      is not [encodable], like a text that holds a surrogate.
    - The file system maps a path to the decoded text of the file; the
      platform's line-ending translation on write lies below it.
    - Exceptions are values of [exn]; a call that may raise returns a
      [result]. What an uncaught exception leaves of the world is not
      kept: a call that raises has no world.
    - The libraries whose answer depends on more than the program, the
      rich console and the opening of a file for writing, are the class
      [Platform]; the ChatGPT client, the operator (Ctrl-C) and the clock
      are the class [Environment], a state machine.
    - The progress bar that tqdm draws on stderr while the loop runs is
      not part of the world. *)

From Stdlib Require Import ZArith String Ascii.
From Stdlib Require Import Floats.SpecFloat.
From stdpp Require Import gmap list.

Set Default Proof Using "Type".
Local Open Scope N_scope.

(** ** Python strings *)

Abbreviation pystr := (list N).

(** A literal of the source, as code points. *)
Fixpoint py (s : string) : pystr :=
  match s with
  | EmptyString => []
  | String a r => N_of_ascii a :: py r
  end.

Arguments py : simpl never.

Definition LF : N := 10.
Definition CR : N := 13.

(** [str.isspace] on one character (CPython's [_PyUnicode_IsWhitespace]). *)
Definition isspace (c : N) : bool :=
  ((0x09 <=? c) && (c <=? 0x0D)) || ((0x1C <=? c) && (c <=? 0x1F))
  || (c =? 0x20) || (c =? 0x85) || (c =? 0xA0) || (c =? 0x1680)
  || ((0x2000 <=? c) && (c <=? 0x200A))
  || (c =? 0x2028) || (c =? 0x2029) || (c =? 0x202F) || (c =? 0x205F)
  || (c =? 0x3000).

Fixpoint lstrip (s : pystr) : pystr :=
  match s with
  | [] => []
  | c :: r => if isspace c then lstrip r else s
  end.

Definition rstrip (s : pystr) : pystr := rev (lstrip (rev s)).

(** [s.strip()] with no argument. *)
Definition strip (s : pystr) : pystr := rstrip (lstrip s).

(** Truth value of a [str] in an [if]: the empty string is false. *)
Definition truthy (s : pystr) : bool :=
  match s with [] => false | _ :: _ => true end.

(** ** Text files *)

(** Reading in text mode with [newline=None]: "\r\n" and "\r" become "\n". *)
Fixpoint universal_newlines (s : pystr) : pystr :=
  match s with
  | [] => []
  | c :: r =>
      if c =? CR then
        match r with
        | d :: r' => if d =? LF then LF :: universal_newlines r'
                     else LF :: universal_newlines r
        | [] => [LF]
        end
      else c :: universal_newlines r
  end.

(** Iterating a text file yields its lines, each with its terminator; a
    last line without terminator is yielded as it is. *)
Fixpoint iter_lines (s : pystr) : list pystr :=
  match s with
  | [] => []
  | c :: r =>
      if c =? LF then [c] :: iter_lines r
      else match iter_lines r with
           | [] => [[c]]
           | l :: ls => (c :: l) :: ls
           end
  end.

(** ** Exceptions and the world *)

Inductive exn : Type :=
  | KeyboardInterrupt
  | ValueError
  | OverflowError
  | FileNotFoundError
  | UnicodeEncodeError
  | MarkupError
  | OtherException (name : string).

Inductive result (A : Type) : Type :=
  | Ok (a : A)
  | Raise (e : exn).
Arguments Ok {A} a.
Arguments Raise {A} e.

Inductive level : Type := DEBUG | INFO | WARNING | ERROR.

(** What the program can observe and change: the files, the records
    handed to [_logger], and the lines [rich.print] has written. *)
Record World : Type := mkWorld {
  fs : gmap pystr pystr;
  log : list (level * pystr);
  console : list pystr
}.

Definition logger (lv : level) (msg : pystr) (w : World) : World :=
  mkWorld (fs w) (log w ++ [(lv, msg)]) (console w).

(** The two library calls whose outcome the program does not decide.
    [rich_render] is what the rich console makes of a string: the text it
    writes, markup consumed, or the exception it raises (MarkupError for a
    closing tag that closes nothing). [open_writable] is whether
    [open(path, "w")] finds the path usable (its directory exists and can
    be written to), or the exception it raises. *)
Class Platform : Type := {
  rich_render : pystr → result pystr;
  open_writable : pystr → result unit
}.

(** [print] of rich: the rendered text and a line feed, or the exception
    of the rendering. *)
Definition print `{Platform} (msg : pystr) (w : World) : result World :=
  match rich_render msg with
  | Ok out => Ok (mkWorld (fs w) (log w) (console w ++ [out ++ [LF]]))
  | Raise e => Raise e
  end.

(** [open(path, "r")]: the text of the file; the empty path names no file. *)
Definition open_r (w : World) (path : pystr) : result pystr :=
  if truthy path then
    match fs w !! path with
    | Some text => Ok (universal_newlines text)
    | None => Raise FileNotFoundError
    end
  else Raise FileNotFoundError.

(** ** load_prompts *)

Section Prompt_source.

(** [PROMPTS] of [prompts.py], which is not among the sources. *)
Variable PROMPTS : list pystr.

(** [[line.strip() for line in f if line.strip()]] *)
Fixpoint strip_lines (f : list pystr) : list pystr :=
  match f with
  | [] => []
  | line :: f' =>
      if truthy (strip line) then strip line :: strip_lines f'
      else strip_lines f'
  end.

Definition load_prompts (w : World) (prompt_file : option pystr)
  : result (list pystr) :=
  match prompt_file with
  | Some path =>
      if truthy path then
        match open_r w path with
        | Ok f => Ok (strip_lines (iter_lines f))
        | Raise e => Raise e
        end
      else Ok PROMPTS
  | None => Ok PROMPTS
  end.

End Prompt_source.

(** The specification's words for the file case: split the text into
    lines, strip whitespace, drop the empty ones, keep the order. *)
Fixpoint split_on (sep : N) (s : pystr) : list pystr :=
  match s with
  | [] => [[]]
  | c :: r =>
      if c =? sep then [] :: split_on sep r
      else match split_on sep r with
           | [] => [[c]]
           | l :: ls => (c :: l) :: ls
           end
  end.

Definition trimmed_nonblank_lines (text : pystr) : list pystr :=
  List.filter truthy (map strip (split_on LF text)).

(** A line is blank when it holds whitespace only. *)
Definition blank (s : pystr) : bool := forallb isspace s.

(** ** save_responses *)

(** [open(path, "w")] creates the file or truncates it, when the platform
    lets the path be opened; the empty path never is. *)
Definition open_w `{Platform} (path : pystr) (w : World) : result World :=
  if truthy path then
    match open_writable path with
    | Ok _ => Ok (mkWorld (<[path := []]> (fs w)) (log w) (console w))
    | Raise e => Raise e
    end
  else Raise FileNotFoundError.

(** A character UTF-8 can encode: a code point that is not a surrogate. *)
Definition scalar (c : N) : bool :=
  (c <? 0xD800) || ((0xDFFF <? c) && (c <=? 0x10FFFF)).

Definition encodable (s : pystr) : bool := forallb scalar s.

(** [f.write(s)] on the file opened at [path] with [encoding="utf-8"]:
    the text is encoded when it is written, and a text that cannot be
    encoded raises before anything of it reaches the file. *)
Definition write (path : pystr) (s : pystr) (w : World) : result World :=
  if encodable s then
    Ok (mkWorld (alter (λ text, text ++ s) path (fs w)) (log w) (console w))
  else Raise UnicodeEncodeError.

(** The three f-strings of [save_responses]. *)
Definition txt_block (prompt response : pystr) : pystr :=
  py "Prompt: " ++ prompt ++ [LF] ++ py "Response: " ++ response ++ [LF; LF].

Definition md_block (prompt response : pystr) : pystr :=
  py "## Prompt" ++ [LF] ++ prompt ++ [LF; LF]
  ++ py "### Response" ++ [LF] ++ response ++ [LF; LF].

Definition stdout_block (prompt response : pystr) : pystr :=
  py "## Prompt: " ++ prompt ++ [LF] ++ py "## Response: " ++ response ++ [LF].

(** [for prompt, response in prompt_response_pairs: f.write(...)] *)
Fixpoint write_each (block : pystr → pystr → pystr) (path : pystr)
    (prompt_response_pairs : list (pystr * pystr)) (w : World)
  : result World :=
  match prompt_response_pairs with
  | [] => Ok w
  | (prompt, response) :: rest =>
      match write path (block prompt response) w with
      | Ok w => write_each block path rest w
      | Raise e => Raise e
      end
  end.

Fixpoint print_each `{Platform}
    (prompt_response_pairs : list (pystr * pystr)) (w : World)
  : result World :=
  match prompt_response_pairs with
  | [] => Ok w
  | (prompt, response) :: rest =>
      match print (stdout_block prompt response) w with
      | Ok w => print_each rest w
      | Raise e => Raise e
      end
  end.

Section Output_writer.

Context `{Platform}.

(** [save_responses_to_docx] of [docgen.py], the document collaborator. *)
Variable save_responses_to_docx :
  list (pystr * pystr) → pystr → World → result World.

Definition save_responses (prompt_response_pairs : list (pystr * pystr))
    (filename output_format : pystr) (w : World) : result World :=
  if bool_decide (output_format = py "docx") then
    save_responses_to_docx prompt_response_pairs filename
      (logger INFO (py "Saving responses to " ++ filename
                    ++ py " in DOCX format") w)
  else if bool_decide (output_format = py "txt") then
    match open_w filename
            (logger INFO (py "Saving responses to " ++ filename
                          ++ py " in TXT format") w) with
    | Ok f => write_each txt_block filename prompt_response_pairs f
    | Raise e => Raise e
    end
  else if bool_decide (output_format = py "md") then
    match open_w filename
            (logger INFO (py "Saving responses to " ++ filename
                          ++ py " in Markdown format") w) with
    | Ok f => write_each md_block filename prompt_response_pairs f
    | Raise e => Raise e
    end
  else if bool_decide (output_format = py "stdout") then
    print_each prompt_response_pairs
      (logger INFO (py "Printing responses to stdout") w)
  else
    Ok (logger ERROR (py "Unknown output format: " ++ output_format) w).

End Output_writer.

(** ** main *)

(** The namespace returned by [parse_args]. *)
Record Args : Type := mkArgs {
  ini : pystr;
  sleep : Z;
  output : pystr;
  output_format : pystr;
  prompt_file : option pystr;
  debug : bool;
  temperature : spec_float;
  top_p : spec_float;
  frequency_penalty : spec_float;
  presence_penalty : spec_float
}.

(** [setup_logging]: the threshold below which records are not emitted. *)
Definition setup_logging (debug : bool) : level :=
  if debug then DEBUG else INFO.

Definition levelno (lv : level) : Z :=
  match lv with DEBUG => 10 | INFO => 20 | WARNING => 30 | ERROR => 40 end%Z.

Definition emitted (threshold : level) (records : list (level * pystr))
  : list (level * pystr) :=
  List.filter (λ r, (levelno threshold <=? levelno r.1)%Z) records.

(** The outside of the program during the loop: the client object
    ([get_response] answers or raises and leaves [last_response] behind)
    and the clock ([time.sleep] returns or is interrupted by Ctrl-C). *)
Class Environment (E : Type) : Type := {
  get_response :
    pystr → spec_float → spec_float → spec_float → spec_float → E →
    result pystr * E;
  last_response : E → pystr;
  wait : Z → E → result unit * E
}.

(** The largest number of seconds that fits, in nanoseconds, the 64-bit
    time of C. *)
Definition PyTime_MAX_seconds : Z := 9223372036.

(** [time.sleep(secs)] with an int: the length is first converted to the
    time of C, which overflows beyond [PyTime_MAX_seconds] on either side,
    and then refused when negative. *)
Definition time_sleep `{Environment E} (secs : Z) (e : E) : result unit * E :=
  if ((secs <? - PyTime_MAX_seconds) || (PyTime_MAX_seconds <? secs))%Z
  then (Raise OverflowError, e)
  else if (secs <? 0)%Z then (Raise ValueError, e)
  else wait secs e.

(** The two strings the loop prints when a request fails. *)
Definition failure_banner (prompt : pystr) : pystr :=
  py "[red]Error generating response for prompt: " ++ prompt ++ py "[/red]".

Definition failure_detail (response : pystr) : pystr :=
  py "[red]Exiting due to error:[/red] " ++ response.

(** How the [for] loop was left. *)
Inductive loop_exit : Type :=
  | Exhausted
  | Break
  | Raised (e : exn).

(** One call of [client.get_response]: the prompt sent, what came back,
    and [client.last_response] afterwards. *)
Record request : Type := mkRequest {
  req_prompt : pystr;
  req_result : result pystr;
  req_last : pystr
}.

(** The state in which the loop is left. [requests] is not a variable of
    the source: it keeps the history of the calls to the client, in which
    the properties of a run are stated. *)
Record Run (E : Type) : Type := mkRun {
  exit : loop_exit;
  prompt_response_pairs : list (pystr * pystr);
  requests : list request;
  env : E;
  world : World
}.
Arguments mkRun {E}.
Arguments exit {E}.
Arguments prompt_response_pairs {E}.
Arguments requests {E}.
Arguments env {E}.
Arguments world {E}.

Section Processing_loop.

Context `{Platform} `{Environment E}.
Variable args : Args.

(** The body of [try: for prompt in tqdm(prompts): ...], started with
    the pairs and the requests so far. [tqdm] yields the prompts in their
    order. *)
Fixpoint process_from (prompts : list pystr) (pairs : list (pystr * pystr))
    (sent : list request) (client : E) (w : World) : Run E :=
  match prompts with
  | [] => mkRun Exhausted pairs sent client w
  | prompt :: rest =>
      let w := logger INFO (py "Sending prompt: " ++ prompt) w in
      let (response, client) :=
        get_response prompt (temperature args) (top_p args)
          (frequency_penalty args) (presence_penalty args) client in
      let sent :=
        sent ++ [mkRequest prompt response (last_response client)] in
      match response with
      | Raise e => mkRun (Raised e) pairs sent client w
      | Ok response =>
          if bool_decide (response = py "Success") then
            let pairs := pairs ++ [(prompt, last_response client)] in
            match time_sleep (sleep args) client with
            | (Ok _, client) => process_from rest pairs sent client w
            | (Raise e, client) => mkRun (Raised e) pairs sent client w
            end
          else
            let w := logger ERROR
              (py "Error generating response for prompt: " ++ prompt) w in
            let w := logger ERROR
              (py "Exiting due to error: " ++ response) w in
            match print (failure_banner prompt) w with
            | Raise e => mkRun (Raised e) pairs sent client w
            | Ok w =>
                match print (failure_detail response) w with
                | Raise e => mkRun (Raised e) pairs sent client w
                | Ok w => mkRun Break pairs sent client w
                end
            end
      end
  end.

(** The loop as [main] runs it: [prompt_response_pairs = []] at first. *)
Definition process (prompts : list pystr) (client : E) (w : World)
  : Run E :=
  process_from prompts [] [] client w.

(** [if prompt_response_pairs: ... else: ...] at the end of [main]. *)
Definition save_or_warn
    (writer : list (pystr * pystr) → pystr → pystr → World → result World)
    (pairs : list (pystr * pystr)) (w : World) : result World :=
  match pairs with
  | _ :: _ =>
      writer pairs (output args) (output_format args)
        (logger INFO (py "Saving responses to " ++ output args
                      ++ py " (format: " ++ output_format args ++ py ")") w)
  | [] => Ok (logger WARNING (py "No responses to save.") w)
  end.

(** [main] from the loaded prompts on, for any Output Writer. *)
Definition run_and_save
    (writer : list (pystr * pystr) → pystr → pystr → World → result World)
    (prompts : list pystr) (client : E) (w : World) : result World :=
  let r := process prompts client w in
  match exit r with
  | Raised KeyboardInterrupt =>
      save_or_warn writer (prompt_response_pairs r)
        (logger WARNING
           (py "Interrupted by user. Saving partial results...") (world r))
  | Raised e => Raise e
  | Exhausted | Break =>
      save_or_warn writer (prompt_response_pairs r) (world r)
  end.

Variable PROMPTS : list pystr.
Variable save_responses_to_docx :
  list (pystr * pystr) → pystr → World → result World.
(** [str] of a float, used by the debug record only. *)
Variable float_str : spec_float → pystr.

(** The client object is taken after its construction from [args.ini]. *)
Definition main (client : E) (w : World) : result World :=
  let w := logger DEBUG
    (py "Using parameters: temperature=" ++ float_str (temperature args)
     ++ py ", top_p=" ++ float_str (top_p args)
     ++ py ", frequency_penalty=" ++ float_str (frequency_penalty args)
     ++ py ", presence_penalty=" ++ float_str (presence_penalty args)) w in
  match load_prompts PROMPTS w (prompt_file args) with
  | Raise e => Raise e
  | Ok prompts =>
      run_and_save (save_responses save_responses_to_docx) prompts client w
  end.

End Processing_loop.

(** ** Reading the text and markdown outputs back *)

(** The sources hold no reader of the files they write. The one below is
    what the round trip of the specification asks for: it cuts the text at
    the first occurrence of each delimiter of the format. *)










(** ** A terminal for the examples *)

(** Console markup as far as the examples go: a tag is "[", then one of
    a-z, "#", "/" or "@", then the text up to the next "]", with no "["
    in between. An opening tag is kept until it is closed, "[/name]"
    closes the nearest open tag of that name and "[/]" the last one; a
    closing tag that finds nothing to close is the MarkupError of rich.
    Tags are not written. Escapes, emoji codes and the wrapping of long
    lines are left out. *)
Definition tag_start (c : N) : bool :=
  ((97 <=? c) && (c <=? 122)) || (c =? 35) || (c =? 47) || (c =? 64).

Fixpoint tag_body (s : pystr) : option (pystr * pystr) :=
  match s with
  | [] => None
  | c :: r =>
      if c =? 93 then Some ([], r)
      else if c =? 91 then None
      else match tag_body r with
           | Some (tag, rest) => Some (c :: tag, rest)
           | None => None
           end
  end.

Fixpoint close_tag (name : pystr) (opened : list pystr)
  : option (list pystr) :=
  match opened with
  | [] => None
  | tag :: below =>
      if bool_decide (name = []) || bool_decide (name = tag) then Some below
      else match close_tag name below with
           | Some below' => Some (tag :: below')
           | None => None
           end
  end.

Fixpoint render_from (fuel : nat) (opened : list pystr) (s : pystr)
  : result pystr :=
  match fuel, s with
  | O, _ => Ok []
  | _, [] => Ok []
  | S fuel, c :: r =>
      let literal :=
        match render_from fuel opened r with
        | Ok out => Ok (c :: out)
        | Raise e => Raise e
        end in
      if c =? 91 then
        match r with
        | d :: _ =>
            if tag_start d then
              match tag_body r with
              | Some (47 :: name, rest) =>
                  match close_tag name opened with
                  | Some opened' => render_from fuel opened' rest
                  | None => Raise MarkupError
                  end
              | Some (tag, rest) => render_from fuel (tag :: opened) rest
              | None => literal
              end
            else literal
        | [] => literal
        end
      else literal
  end.

(** A terminal whose current directory can be written to and has no
    subdirectory: a path with a "/" cannot be opened. *)
#[export] Instance Terminal : Platform := {
  rich_render s := render_from (length s) [] s;
  open_writable path :=
    if forallb (λ c, negb (c =? 47)) path then Ok tt
    else Raise FileNotFoundError
}.

(** ** A scripted environment *)

(** A client that plays a fixed script: each request consumes one entry
    (what [get_response] does and what it leaves in [last_response]),
    each sleep one entry of [pauses]; past the script the client answers
    an error and sleeps are not interrupted. *)
Record Script : Type := mkScript {
  left_behind : pystr;
  replies : list (result pystr * pystr);
  pauses : list (result unit)
}.

#[export] Instance Script_env : Environment Script := {
  get_response prompt _ _ _ _ s :=
    match replies s with
    | [] => (Ok (py "Error: no reply"), s)
    | (r, text) :: rest => (r, mkScript text rest (pauses s))
    end;
  last_response s := left_behind s;
  wait _ s :=
    match pauses s with
    | [] => (Ok tt, s)
    | p :: rest => (p, mkScript (left_behind s) (replies s) rest)
    end
}.

Definition empty_world : World := mkWorld ∅ [] [].

(** A world with one prompt file: "a", an empty line, a line of two
    spaces ended by "\r\n", and "b". *)
Definition prompt_file_world : World :=
  mkWorld {[ py "prompts.txt" :=
             py "a" ++ [LF; LF] ++ py "  " ++ [CR; LF] ++ py "b" ++ [LF] ]}
          [] [].

Definition zero : spec_float := S754_zero false.

Definition default_args (fmt : string) : Args :=
  mkArgs (py "ai.ini") 1 (py "output.docx") (py fmt) None false
    zero zero zero zero.

(** A document collaborator that writes nothing. *)
Definition no_docx (pairs : list (pystr * pystr)) (filename : pystr)
    (w : World) : result World := Ok w.

(** The texts rich writes for a list of strings printed one after the
    other, up to the first one it refuses. *)
Fixpoint render_all `{Platform} (msgs : list pystr) : result (list pystr) :=
  match msgs with
  | [] => Ok []
  | msg :: rest =>
      match rich_render msg with
      | Raise e => Raise e
      | Ok out =>
          match render_all rest with
          | Raise e => Raise e
          | Ok outs => Ok ((out ++ [LF]) :: outs)
          end
      end
  end.

(** Pairs whose texts UTF-8 can encode. *)
Definition encodable_pair (pair : pystr * pystr) : bool :=
  encodable pair.1 && encodable pair.2.

(** What the specification asks a file to hold after a write: the blocks
    of the pairs one after the other. *)
Definition blocks (block : pystr → pystr → pystr)
    (pairs : list (pystr * pystr)) : pystr :=
  flat_map (λ pair, block pair.1 pair.2) pairs.

(** A request the loop counts as a success. *)
Definition succeeded (q : request) : bool :=
  match req_result q with
  | Ok response => bool_decide (response = py "Success")
  | Raise _ => false
  end.

Definition pair_of (q : request) : pystr * pystr := (req_prompt q, req_last q).

(** ** Prompt files line by line *)

(** The three line terminators a text file may use. *)
Inductive newline : Type := Unix | Windows | OldMac.

Definition eol (n : newline) : pystr :=
  match n with Unix => [LF] | Windows => [CR; LF] | OldMac => [CR] end.

(** The text of a file given line by line, each line with its terminator,
    and possibly a last line without one. *)
Definition text_of_lines (lines : list (pystr * newline))
    (unterminated : option pystr) : pystr :=
  flat_map (λ l, l.1 ++ eol l.2) lines ++ default [] unterminated.

(** A prompt as [load_prompts] yields it from a file: not empty, with no
    whitespace at either end and no line break inside. *)
Definition tidy (p : pystr) : Prop :=
  p ≠ [] ∧ strip p = p ∧ Forall (λ c, c ≠ LF ∧ c ≠ CR) p.

(** ** An environment that always answers *)

(** A client that always returns: it refuses the prompt "fail" and
    answers every other prompt with 'Success', leaving the prompt itself,
    reversed, as its response; sleeps are never interrupted. *)
Record Mirror : Type := mkMirror { shown : pystr }.

#[export] Instance Mirror_env : Environment Mirror := {
  get_response prompt _ _ _ _ m :=
    if bool_decide (prompt = py "fail") then (Ok (py "Error: refused"), m)
    else (Ok (py "Success"), mkMirror (rev prompt));
  last_response m := shown m;
  wait _ m := (Ok tt, m)
}.

(** What the console gains when the loop reports a failure: the
    rendering of each of the two strings, up to the first one that rich
    refuses. *)
Definition failure_printed `{Platform} (prompt response : pystr)
  : list pystr :=
  match rich_render (failure_banner prompt) with
  | Raise _ => []
  | Ok o1 =>
      (o1 ++ [LF])
      :: match rich_render (failure_detail response) with
         | Raise _ => []
         | Ok o2 => [o2 ++ [LF]]
         end
  end.

(** The record the loop hands to the logger before a request. *)
Definition sending (q : request) : level * pystr :=
  (INFO, py "Sending prompt: " ++ req_prompt q).

(** * Properties *)

(** ** Whitespace stripping *)

Lemma lstrip_app (x y : pystr) :
  lstrip (x ++ y) = if blank x then lstrip y else lstrip x ++ y.
Proof.
  induction x as [|c x IH]; simpl; [done|].
  destruct (isspace c); simpl; [exact IH | done].
Qed.

Lemma lstrip_blank (x : pystr) : blank x = true → lstrip x = [].
Proof.
  intros H. pose proof (lstrip_app x []) as E.
  rewrite app_nil_r, H in E. exact E.
Qed.

Lemma lstrip_nil_blank (x : pystr) : lstrip x = [] → blank x = true.
Proof.
  induction x as [|c x IH]; simpl; [done|].
  destruct (isspace c); simpl; [exact IH | done].
Qed.

Lemma rstrip_snoc_space (x : pystr) (c : N) :
  isspace c = true → rstrip (x ++ [c]) = rstrip x.
Proof.
  intros H. unfold rstrip. rewrite rev_app_distr. simpl. by rewrite H.
Qed.

Lemma rstrip_nil : rstrip [] = [].
Proof. reflexivity. Qed.

Lemma strip_snoc_space (x : pystr) (c : N) :
  isspace c = true → strip (x ++ [c]) = strip x.
Proof.
  intros H. unfold strip. rewrite lstrip_app.
  destruct (blank x) eqn:B.
  - rewrite (lstrip_blank x B). simpl. by rewrite H.
  - by apply rstrip_snoc_space.
Qed.

Lemma strip_blank (x : pystr) : blank x = true → strip x = [].
Proof. intros H. unfold strip. by rewrite (lstrip_blank x H). Qed.

Lemma rstrip_cons_nonspace (c : N) (x : pystr) :
  isspace c = false → rstrip (c :: x) = c :: rstrip x.
Proof.
  intros H. unfold rstrip. simpl. rewrite lstrip_app.
  destruct (blank (rev x)) eqn:B.
  - rewrite (lstrip_blank _ B). simpl. by rewrite H.
  - by rewrite rev_app_distr.
Qed.

Lemma strip_nil_blank (x : pystr) : strip x = [] → blank x = true.
Proof.
  unfold strip. intros H. apply lstrip_nil_blank.
  destruct (lstrip x) as [|c y] eqn:E; [done|].
  assert (isspace c = false) as Hc.
  { clear H. induction x as [|d x IH]; simpl in E; [done|].
    destruct (isspace d) eqn:D; [by apply IH | congruence]. }
  by rewrite (rstrip_cons_nonspace c y Hc) in H.
Qed.

Lemma truthy_strip (x : pystr) : truthy (strip x) = negb (blank x).
Proof.
  destruct (blank x) eqn:B.
  - by rewrite (strip_blank x B).
  - destruct (strip x) eqn:E; [|done].
    apply strip_nil_blank in E. congruence.
Qed.

Lemma lstrip_idem (x : pystr) : lstrip (lstrip x) = lstrip x.
Proof.
  induction x as [|c x IH]; simpl; [done|].
  destruct (isspace c) eqn:C; [exact IH|]. simpl. by rewrite C.
Qed.

Lemma strip_idem (x : pystr) : strip (strip x) = strip x.
Proof.
  unfold strip. destruct (lstrip x) as [|c y] eqn:E; [done|].
  assert (isspace c = false) as Hc.
  { clear -E. induction x as [|d x IH]; simpl in E; [done|].
    destruct (isspace d) eqn:D; [by apply IH | congruence]. }
  rewrite (rstrip_cons_nonspace c y Hc). simpl. rewrite Hc.
  rewrite <- (rstrip_cons_nonspace c y Hc).
  unfold rstrip at 1. unfold rstrip at 1.
  by rewrite rev_involutive, lstrip_idem.
Qed.

(** ** The prompt source *)

Lemma strip_lines_filter (f : list pystr) :
  strip_lines f = List.filter truthy (map strip f).
Proof.
  induction f as [|line f IH]; simpl; [done|].
  destruct (truthy (strip line)); by rewrite IH.
Qed.

Lemma isspace_LF : isspace LF = true.
Proof. reflexivity. Qed.

(** The lines a file iteration yields are the pieces between line feeds,
    each still carrying its line feed; a text that ends in a line feed has
    one more, empty, piece. *)
Lemma iter_lines_split_on (s : pystr) :
  s = [] ∨
  ∃ l ls l' ls',
    iter_lines s = l :: ls ∧ split_on LF s = l' :: ls' ∧
    ((l = l' ++ [LF] ∧
      List.filter truthy (map strip ls) = List.filter truthy (map strip ls'))
     ∨ (l = l' ∧ ls = [] ∧ ls' = [])).
Proof.
  induction s as [|c r IH]; [by left|]. right. simpl.
  assert (List.filter truthy (map strip (iter_lines r))
          = List.filter truthy (map strip (split_on LF r))) as Hrest.
  { destruct IH as [->|(l & ls & l' & ls' & -> & -> & Hl)]; [done|].
    destruct Hl as [[-> Hf]|(-> & -> & ->)]; [|done].
    simpl. rewrite (strip_snoc_space l' LF isspace_LF).
    by rewrite Hf. }
  destruct (c =? LF) eqn:C.
  - apply N.eqb_eq in C as ->.
    exists [LF], (iter_lines r), [], (split_on LF r). auto.
  - destruct IH as [->|(l & ls & l' & ls' & Hi & Hs & Hl)].
    + exists [c], [], [c], []. simpl. auto 6.
    + rewrite Hi, Hs in *. exists (c :: l), ls, (c :: l'), ls'.
      split; [done|]. split; [done|].
      destruct Hl as [[-> Hf]|(-> & -> & ->)]; auto.
Qed.

Lemma strip_lines_iter_lines (text : pystr) :
  strip_lines (iter_lines text) = trimmed_nonblank_lines text.
Proof.
  rewrite strip_lines_filter. unfold trimmed_nonblank_lines.
  destruct (iter_lines_split_on text)
    as [->|(l & ls & l' & ls' & -> & -> & Hl)]; [done|].
  destruct Hl as [[-> Hf]|(-> & -> & ->)]; [|done].
  simpl. rewrite (strip_snoc_space l' LF isspace_LF). by rewrite Hf.
Qed.

Lemma open_r_truthy (w : World) (path text : pystr) :
  open_r w path = Ok text → truthy path = true.
Proof. unfold open_r. by destruct (truthy path). Qed.

(** C5. For every readable prompt file, [load_prompts] with its path
    returns exactly the lines of the file with their whitespace trimmed,
    those that are blank left out, in the order of the file. *)
Theorem load_prompts_file (PROMPTS : list pystr) (w : World)
    (path text : pystr) :
  open_r w path = Ok text →
  load_prompts PROMPTS w (Some path) = Ok (trimmed_nonblank_lines text).
Proof.
  intros Hopen. unfold load_prompts.
  rewrite (open_r_truthy w path text Hopen), Hopen.
  by rewrite strip_lines_iter_lines.
Qed.

Lemma load_prompts_file_witness :
  open_r prompt_file_world (py "prompts.txt")
  = Ok (py "a" ++ [LF; LF] ++ py "  " ++ [LF] ++ py "b" ++ [LF])
  ∧ load_prompts [] prompt_file_world (Some (py "prompts.txt"))
    = Ok [py "a"; py "b"].
Proof.
  split; [vm_compute; reflexivity|].
  exact (load_prompts_file [] prompt_file_world (py "prompts.txt")
           (py "a" ++ [LF; LF] ++ py "  " ++ [LF] ++ py "b" ++ [LF])
           eq_refl).
Defined.

(** What comes out of a file is trimmed and not blank. *)
Lemma trimmed_nonblank_lines_clean (text : pystr) :
  Forall (λ p, strip p = p ∧ blank p = false) (trimmed_nonblank_lines text).
Proof.
  unfold trimmed_nonblank_lines. apply List.Forall_forall. intros p Hp.
  apply List.filter_In in Hp as [Hin Ht].
  apply List.in_map_iff in Hin as (l & <- & _).
  split; [apply strip_idem|].
  rewrite <- (strip_idem l) in Ht. rewrite truthy_strip in Ht.
  by destruct (blank (strip l)).
Qed.



(** ** The output writer *)

Lemma encodable_app (a b : pystr) :
  encodable (a ++ b) = encodable a && encodable b.
Proof. apply forallb_app. Qed.

Lemma py_encodable (s : string) : encodable (py s) = true.
Proof.
  induction s as [|a s IH]; [done|].
  change (py (String a s)) with (N_of_ascii a :: py s).
  change (encodable (N_of_ascii a :: py s))
    with (scalar (N_of_ascii a) && encodable (py s)).
  rewrite IH, andb_true_r. unfold scalar.
  pose proof (N_ascii_bounded a) as Ha.
  apply orb_true_iff. left. apply N.ltb_lt. lia.
Qed.

Lemma LF_encodable : encodable [LF] = true ∧ encodable [LF; LF] = true.
Proof. by split. Qed.

Lemma txt_block_encodable (p r : pystr) :
  encodable (txt_block p r) = encodable p && encodable r.
Proof.
  unfold txt_block. rewrite !encodable_app, !py_encodable.
  rewrite (proj1 LF_encodable), (proj2 LF_encodable).
  by rewrite andb_true_r.
Qed.

Lemma md_block_encodable (p r : pystr) :
  encodable (md_block p r) = encodable p && encodable r.
Proof.
  unfold md_block. rewrite !encodable_app, !py_encodable.
  rewrite (proj1 LF_encodable), (proj2 LF_encodable).
  by rewrite !andb_true_r.
Qed.

(** The loop of writes appends every block, unless one of them cannot be
    encoded. *)
Lemma write_each_blocks (block : pystr → pystr → pystr) (path : pystr)
    (pairs : list (pystr * pystr)) (w : World) (text : pystr) :
  fs w !! path = Some text →
  write_each block path pairs w
  = if forallb (λ pair, encodable (block pair.1 pair.2)) pairs
    then Ok (mkWorld (<[path := text ++ blocks block pairs]> (fs w))
               (log w) (console w))
    else Raise UnicodeEncodeError.
Proof.
  revert w text. induction pairs as [|[prompt response] rest IH];
    intros w text Hpath.
  - simpl. rewrite app_nil_r, (insert_id _ _ _ Hpath). by destruct w.
  - cbn [write_each forallb fst snd]. unfold write.
    destruct (encodable (block prompt response)); [|done].
    cbn [andb].
    rewrite (IH _ (text ++ block prompt response)).
    + destruct (forallb _ rest); [|done]. cbn [fs log console]. f_equal.
      f_equal. change (blocks block ((prompt, response) :: rest))
        with (block prompt response ++ blocks block rest).
      rewrite <- app_assoc. apply map_eq. intros k.
      destruct (decide (path = k)) as [<-|Hk].
      * by rewrite !lookup_insert_eq.
      * rewrite !lookup_insert_ne by done. by rewrite lookup_alter_ne.
    + cbn [fs]. by rewrite lookup_alter_eq, Hpath.
Qed.

Ltac decide_format :=
  repeat match goal with
  | |- context [bool_decide (?a = ?b)] =>
      first
        [ rewrite (bool_decide_eq_true_2 (a = b)) by reflexivity
        | rewrite (bool_decide_eq_false_2 (a = b))
            by first [ assumption | cbv; discriminate ] ]
  end.

Section Writer_facts.

Context `{Platform}.

Lemma open_w_write_each (block : pystr → pystr → pystr) (path : pystr)
    (pairs : list (pystr * pystr)) (w f : World) :
  open_w path w = Ok f →
  write_each block path pairs f
  = if forallb (λ pair, encodable (block pair.1 pair.2)) pairs
    then Ok (mkWorld (<[path := blocks block pairs]> (fs w))
               (log w) (console w))
    else Raise UnicodeEncodeError.
Proof.
  unfold open_w. destruct (truthy path); [|done].
  destruct (open_writable path); [|done]. intros [= <-].
  rewrite (write_each_blocks block path pairs _ []); cbn [fs log console].
  - by rewrite insert_insert_eq.
  - by rewrite lookup_insert_eq.
Qed.

Lemma forallb_encodable_txt (pairs : list (pystr * pystr)) :
  forallb (λ pair, encodable (txt_block pair.1 pair.2)) pairs
  = forallb encodable_pair pairs.
Proof.
  induction pairs as [|[p r] pairs IH]; [done|].
  cbn [forallb fst snd]. by rewrite IH, txt_block_encodable.
Qed.

Lemma forallb_encodable_md (pairs : list (pystr * pystr)) :
  forallb (λ pair, encodable (md_block pair.1 pair.2)) pairs
  = forallb encodable_pair pairs.
Proof.
  induction pairs as [|[p r] pairs IH]; [done|].
  cbn [forallb fst snd]. by rewrite IH, md_block_encodable.
Qed.

(** What a write in one of the two file formats does once the
    destination is open: all the blocks, or the exception of the first
    text that cannot be encoded. *)
Lemma save_responses_file
    (docx : list (pystr * pystr) → pystr → World → result World)
    (pairs : list (pystr * pystr)) (filename : pystr) (w : World) :
  truthy filename = true →
  open_writable filename = Ok tt →
  save_responses docx pairs filename (py "txt") w
  = (if forallb encodable_pair pairs
     then Ok (mkWorld (<[filename := blocks txt_block pairs]> (fs w))
                (log w ++ [(INFO, py "Saving responses to " ++ filename
                                  ++ py " in TXT format")])
                (console w))
     else Raise UnicodeEncodeError)
  ∧ save_responses docx pairs filename (py "md") w
    = (if forallb encodable_pair pairs
       then Ok (mkWorld (<[filename := blocks md_block pairs]> (fs w))
                  (log w ++ [(INFO, py "Saving responses to " ++ filename
                                    ++ py " in Markdown format")])
                  (console w))
       else Raise UnicodeEncodeError).
Proof.
  intros Hname Hdir.
  assert (∀ v, ∃ f, open_w filename v = Ok f) as Hopen.
  { intros v. unfold open_w. rewrite Hname, Hdir. eauto. }
  split.
  - unfold save_responses. decide_format.
    destruct (Hopen (logger INFO (py "Saving responses to " ++ filename
                                  ++ py " in TXT format") w)) as [f Hf].
    by rewrite Hf, (open_w_write_each _ _ _ _ _ Hf), forallb_encodable_txt.
  - unfold save_responses. decide_format.
    destruct (Hopen (logger INFO (py "Saving responses to " ++ filename
                                  ++ py " in Markdown format") w)) as [f Hf].
    by rewrite Hf, (open_w_write_each _ _ _ _ _ Hf), forallb_encodable_md.
Qed.


(** C8. For every output format other than docx, txt, md and stdout the
    writer hands one error record to the logger and returns: no file is
    created or changed, nothing is printed, the document collaborator is
    not called, and nothing is raised. *)
Theorem save_responses_unknown_format
    (docx : list (pystr * pystr) → pystr → World → result World)
    (pairs : list (pystr * pystr)) (filename fmt : pystr) (w : World) :
  fmt ≠ py "docx" → fmt ≠ py "txt" → fmt ≠ py "md" → fmt ≠ py "stdout" →
  save_responses docx pairs filename fmt w
  = Ok (mkWorld (fs w)
          (log w ++ [(ERROR, py "Unknown output format: " ++ fmt)])
          (console w)).
Proof.
  intros H1 H2 H3 H4. unfold save_responses. by decide_format.
Qed.

End Writer_facts.


Lemma save_responses_unknown_format_witness :
  save_responses no_docx [(py "p", py "r")] (py "out.pdf") (py "pdf")
    (mkWorld {[ py "out.pdf" := py "old" ]} [] [])
  = Ok (mkWorld {[ py "out.pdf" := py "old" ]}
          [(ERROR, py "Unknown output format: " ++ py "pdf")] []).
Proof.
  refine (save_responses_unknown_format no_docx [(py "p", py "r")]
            (py "out.pdf") (py "pdf")
            (mkWorld {[ py "out.pdf" := py "old" ]} [] []) _ _ _ _);
    cbv; discriminate.
Defined.

(** ** The processing loop *)

Lemma filter_all {A} (f : A → bool) (l : list A) :
  Forall (λ x, f x = true) l → List.filter f l = l.
Proof.
  induction 1 as [|x l Hx _ IH]; simpl; [done|]. by rewrite Hx, IH.
Qed.

Lemma succeeded_ok (prompt response text : pystr) :
  succeeded (mkRequest prompt (Ok response) text)
  = bool_decide (response = py "Success").
Proof. reflexivity. Qed.

Section Loop_facts.

Context `{Platform} `{Environment E}.
Variable args : Args.

Opaque py.

(** What one run of the loop leaves behind, whatever the pairs and the
    requests it was started with: the new requests go through the
    prompts in order, every request but the last was a success, the
    new pairs are those of the successes, and the files are untouched. *)
Lemma process_shape (prompts : list pystr) :
  ∀ (pairs : list (pystr * pystr)) (sent : list request) (client : E)
    (w : World),
  ∃ reqs,
    requests (process_from args prompts pairs sent client w) = sent ++ reqs
    ∧ prompt_response_pairs (process_from args prompts pairs sent client w)
      = pairs ++ map pair_of (List.filter succeeded reqs)
    ∧ map req_prompt reqs = take (length reqs) prompts
    ∧ (∀ i q, reqs !! i = Some q → (S i < length reqs)%nat → succeeded q = true)
    ∧ fs (world (process_from args prompts pairs sent client w)) = fs w
    ∧ match exit (process_from args prompts pairs sent client w) with
      | Exhausted =>
          length reqs = length prompts
          ∧ Forall (λ q, succeeded q = true) reqs
      | Break =>
          ∃ q v o1 o2,
            last reqs = Some q ∧ req_result q = Ok v ∧ v ≠ py "Success"
            ∧ rich_render (failure_banner (req_prompt q)) = Ok o1
            ∧ rich_render (failure_detail v) = Ok o2
      | Raised e =>
          ∃ q, last reqs = Some q
               ∧ (req_result q = Raise e ∨ succeeded q = true
                  ∨ ∃ v, req_result q = Ok v ∧ v ≠ py "Success"
                         ∧ (rich_render (failure_banner (req_prompt q))
                            = Raise e
                            ∨ ∃ o1,
                                rich_render (failure_banner (req_prompt q))
                                = Ok o1
                                ∧ rich_render (failure_detail v) = Raise e))
      end.
Proof.
  induction prompts as [|prompt rest IH]; intros pairs sent client w.
  - exists []. simpl. rewrite !app_nil_r. repeat split; auto.
    intros i q Hq. by rewrite lookup_nil in Hq.
  - simpl.
    destruct (get_response prompt (temperature args) (top_p args)
                (frequency_penalty args) (presence_penalty args) client)
      as [[response|e] client1] eqn:Hget.
    + destruct (bool_decide (response = py "Success")) eqn:Hok.
      * destruct (time_sleep (sleep args) client1)
          as [[[]|e] client2] eqn:Hsleep.
        -- destruct (IH (pairs ++ [(prompt, last_response client1)])
                       (sent ++ [mkRequest prompt (Ok response)
                                   (last_response client1)])
                       client2
                       (logger INFO (py "Sending prompt: " ++ prompt) w))
             as (reqs & Hreq & Hpairs & Hprompts & Hfront & Hfs & Hexit).
           exists (mkRequest prompt (Ok response) (last_response client1)
                   :: reqs).
           rewrite Hreq, Hpairs, Hfs. simpl.
           rewrite succeeded_ok, Hok, <- !app_assoc. simpl.
           repeat split; auto.
           ++ by rewrite Hprompts.
           ++ intros [|i] q Hq Hi; simpl in *.
              ** injection Hq as <-. unfold succeeded. simpl. exact Hok.
              ** apply (Hfront i q Hq). lia.
           ++ destruct (exit _).
              ** destruct Hexit as [Hlen Hall]. split; [by rewrite Hlen|].
                 constructor; [|exact Hall]. unfold succeeded. simpl.
                 exact Hok.
              ** destruct Hexit as (q & v & o1 & o2 & Hlast & Hv).
                 exists q, v, o1, o2. split; [|exact Hv].
                 destruct reqs; [done|exact Hlast].
              ** destruct Hexit as (q & Hlast & Hq).
                 exists q. split; [|exact Hq].
                 destruct reqs; [done|exact Hlast].
        -- exists [mkRequest prompt (Ok response) (last_response client1)].
           simpl. unfold succeeded. simpl. rewrite Hok. simpl.
           repeat split; auto.
           ++ intros [|i] q Hq Hi; simpl in *; [lia|].
              by rewrite lookup_nil in Hq.
           ++ eexists. split; [done|]. right. left. exact Hok.
      * apply bool_decide_eq_false in Hok as Hne.
        exists [mkRequest prompt (Ok response) (last_response client1)].
        unfold print.
        destruct (rich_render (failure_banner prompt)) as [o1|e1] eqn:H1;
          [destruct (rich_render (failure_detail response)) as [o2|e2]
             eqn:H2|];
          simpl; unfold succeeded; simpl; rewrite Hok; simpl;
          rewrite app_nil_r; repeat split; auto;
          try (intros [|i] q Hq Hi; simpl in *; [lia|];
               by rewrite lookup_nil in Hq).
        -- eexists _, response, o1, o2. by repeat split.
        -- eexists. split; [done|]. right. right. exists response.
           split; [done|]. split; [done|]. right. by exists o1.
        -- eexists. split; [done|]. right. right. exists response.
           split; [done|]. split; [done|]. by left.
    + exists [mkRequest prompt (Raise e) (last_response client1)].
      simpl. rewrite app_nil_r. repeat split; auto.
      * intros [|i] q Hq Hi; simpl in *; [lia|].
        by rewrite lookup_nil in Hq.
      * eexists. split; [done|]. by left.
Qed.

(** The successes of a run are its first requests. *)
Lemma successes_first (reqs : list request) :
  (∀ i q, reqs !! i = Some q → (S i < length reqs)%nat →
          succeeded q = true) →
  List.filter succeeded reqs
  = take (length (List.filter succeeded reqs)) reqs.
Proof.
  induction reqs as [|q reqs IH]; intros Hfront; [done|].
  destruct reqs as [|q' reqs].
  - simpl. by destruct (succeeded q).
  - assert (succeeded q = true) as Hq
      by (apply (Hfront 0%nat q); [done | simpl; lia]).
    change (List.filter succeeded (q :: q' :: reqs))
      with (if succeeded q then q :: List.filter succeeded (q' :: reqs)
            else List.filter succeeded (q' :: reqs)).
    rewrite Hq. cbn [length take]. f_equal. apply IH.
    intros i x Hx Hi. apply (Hfront (S i) x Hx). simpl in *. lia.
Qed.

Lemma successes_at_most (reqs : list request) :
  (length (List.filter succeeded reqs) ≤ length reqs)%nat.
Proof.
  induction reqs as [|q reqs IH]; simpl; [done|].
  destruct (succeeded q); simpl; lia.
Qed.

(** A request that was not a success is the last one of its run. *)
Lemma failure_is_last (reqs : list request) (n : nat) (q : request) :
  (∀ i x, reqs !! i = Some x → (S i < length reqs)%nat →
          succeeded x = true) →
  reqs !! n = Some q → succeeded q = false →
  length reqs = S n ∧ List.filter succeeded reqs = take n reqs.
Proof.
  intros Hfront Hn Hq.
  assert (length reqs = S n) as Hlen.
  { pose proof (lookup_lt_Some _ _ _ Hn).
    destruct (decide (S n < length reqs)%nat) as [Hlt|]; [|lia].
    rewrite (Hfront n q Hn Hlt) in Hq. done. }
  split; [exact Hlen|].
  rewrite <- (take_drop n reqs) at 1.
  rewrite List.filter_app.
  rewrite (drop_S _ _ _ Hn), drop_ge by lia. simpl. rewrite Hq.
  rewrite app_nil_r. apply filter_all. apply Forall_lookup_2.
  intros i x Hx. apply lookup_take_Some in Hx as [Hx Hi].
  apply (Hfront i x Hx). lia.
Qed.

Transparent py.

End Loop_facts.

Section Loop_claims.

Context `{Platform} `{Environment E}.
Variable args : Args.

(** The loop as [main] starts it, in the terms of [process_shape]. *)
Lemma process_run (prompts : list pystr) (client : E) (w : World) :
  prompt_response_pairs (process args prompts client w)
  = map pair_of (List.filter succeeded (requests (process args prompts client w)))
  ∧ map req_prompt (requests (process args prompts client w))
    = take (length (requests (process args prompts client w))) prompts
  ∧ (∀ i q, requests (process args prompts client w) !! i = Some q →
            (S i < length (requests (process args prompts client w)))%nat →
            succeeded q = true)
  ∧ fs (world (process args prompts client w)) = fs w
  ∧ match exit (process args prompts client w) with
    | Exhausted =>
        length (requests (process args prompts client w)) = length prompts
        ∧ Forall (λ q, succeeded q = true)
            (requests (process args prompts client w))
    | Break =>
        ∃ q v o1 o2,
          last (requests (process args prompts client w)) = Some q
          ∧ req_result q = Ok v ∧ v ≠ py "Success"
          ∧ rich_render (failure_banner (req_prompt q)) = Ok o1
          ∧ rich_render (failure_detail v) = Ok o2
    | Raised e =>
        ∃ q, last (requests (process args prompts client w)) = Some q
             ∧ (req_result q = Raise e ∨ succeeded q = true
                ∨ ∃ v, req_result q = Ok v ∧ v ≠ py "Success"
                       ∧ (rich_render (failure_banner (req_prompt q))
                          = Raise e
                          ∨ ∃ o1,
                              rich_render (failure_banner (req_prompt q))
                              = Ok o1
                              ∧ rich_render (failure_detail v) = Raise e))
    end.
Proof.
  unfold process.
  destruct (process_shape args prompts [] [] client w)
    as (reqs & -> & -> & Hprompts & Hfront & Hfs & Hexit).
  simpl. repeat split; auto.
Qed.

Lemma succeeded_true (q : request) :
  succeeded q = true ↔ req_result q = Ok (py "Success").
Proof.
  unfold succeeded. destruct (req_result q) as [v|e]; [|done].
  rewrite bool_decide_eq_true. split; [by intros -> | by intros [= ->]].
Qed.

Lemma map_fst_pair_of (reqs : list request) :
  map fst (map pair_of reqs) = map req_prompt reqs.
Proof. induction reqs; simpl; by f_equal. Qed.




(** C9. A run that reaches the end of [main] with no pair calls no
    Output Writer: whatever the writer, the outcome is the same world,
    whose files are those of the start and whose last record is the
    warning, emitted at either logging threshold. *)
Theorem no_pairs_no_writer (prompts : list pystr) (client : E) (w : World) :
  prompt_response_pairs (process args prompts client w) = [] →
  (∀ e, exit (process args prompts client w) = Raised e →
        e = KeyboardInterrupt) →
  ∃ w',
    (∀ writer, run_and_save args writer prompts client w = Ok w')
    ∧ fs w' = fs w
    ∧ console w' = console (world (process args prompts client w))
    ∧ last (log w') = Some (WARNING, py "No responses to save.")
    ∧ ∀ debug,
        last (emitted (setup_logging debug) (log w'))
        = Some (WARNING, py "No responses to save.").
Proof.
  intros Hnone Hend.
  destruct (process_run prompts client w) as (_ & _ & _ & Hfs & _).
  assert (∀ v, ∀ debug,
            last (emitted (setup_logging debug)
                    (log (logger WARNING (py "No responses to save.") v)))
            = Some (WARNING, py "No responses to save.")) as Hwarn.
  { intros v debug. unfold logger, emitted. simpl.
    rewrite List.filter_app, last_app. by destruct debug. }
  destruct (exit (process args prompts client w)) as [| |e] eqn:Hexit.
  - eexists. split; [|split; [|split; [|split]]].
    + intros writer. unfold run_and_save. rewrite Hexit, Hnone. done.
    + exact Hfs.
    + done.
    + simpl. by rewrite last_snoc.
    + apply Hwarn.
  - eexists. split; [|split; [|split; [|split]]].
    + intros writer. unfold run_and_save. rewrite Hexit, Hnone. done.
    + exact Hfs.
    + done.
    + simpl. by rewrite last_snoc.
    + apply Hwarn.
  - rewrite (Hend e eq_refl) in Hexit.
    eexists. split; [|split; [|split; [|split]]].
    + intros writer. unfold run_and_save. rewrite Hexit, Hnone. done.
    + exact Hfs.
    + done.
    + simpl. by rewrite last_snoc.
    + apply Hwarn.
Qed.

(** C10. One request answered [response] leaves a pair if and only if
    [response] is exactly 'Success'; the pair then holds the prompt with
    [client.last_response], not the value returned. Any other value
    leaves the pairs as they were and ends the run of the loop there,
    with no further request: by [break] once the failure is printed, or
    by the exception of rich when it refuses one of the two strings. *)
Theorem success_iff_exact (prompt : pystr) (rest : list pystr)
    (pairs : list (pystr * pystr)) (sent : list request) (client : E)
    (w : World) (response : pystr) (client1 : E) :
  get_response prompt (temperature args) (top_p args)
    (frequency_penalty args) (presence_penalty args) client
  = (Ok response, client1) →
  ((∃ more,
      prompt_response_pairs
        (process_from args (prompt :: rest) pairs sent client w)
      = pairs ++ (prompt, last_response client1) :: more)
   ↔ response = py "Success")
  ∧ (response ≠ py "Success" →
     exit (process_from args (prompt :: rest) pairs sent client w)
     = match rich_render (failure_banner prompt) with
       | Raise e => Raised e
       | Ok _ =>
           match rich_render (failure_detail response) with
           | Raise e => Raised e
           | Ok _ => Break
           end
       end
     ∧ prompt_response_pairs
         (process_from args (prompt :: rest) pairs sent client w) = pairs
     ∧ requests (process_from args (prompt :: rest) pairs sent client w)
       = sent ++ [mkRequest prompt (Ok response) (last_response client1)]
     ∧ env (process_from args (prompt :: rest) pairs sent client w)
       = client1).
Proof.
  intros Hget.
  assert (response ≠ py "Success" →
     exit (process_from args (prompt :: rest) pairs sent client w)
     = match rich_render (failure_banner prompt) with
       | Raise e => Raised e
       | Ok _ =>
           match rich_render (failure_detail response) with
           | Raise e => Raised e
           | Ok _ => Break
           end
       end
     ∧ prompt_response_pairs
         (process_from args (prompt :: rest) pairs sent client w) = pairs
     ∧ requests (process_from args (prompt :: rest) pairs sent client w)
       = sent ++ [mkRequest prompt (Ok response) (last_response client1)]
     ∧ env (process_from args (prompt :: rest) pairs sent client w)
       = client1)
    as Hfail.
  { intros Hne. cbn [process_from]. rewrite Hget.
    rewrite (bool_decide_eq_false_2 _ Hne). unfold print.
    destruct (rich_render (failure_banner prompt)); [|done].
    by destruct (rich_render (failure_detail response)). }
  split; [|exact Hfail]. split.
  - intros [more Hmore].
    destruct (decide (response = py "Success")) as [|Hne]; [done|].
    destruct (Hfail Hne) as (_ & Hsame & _). rewrite Hsame in Hmore.
    apply (f_equal length) in Hmore. rewrite length_app in Hmore.
    simpl in Hmore. lia.
  - intros ->. cbn [process_from]. rewrite Hget.
    rewrite (bool_decide_eq_true_2 _ eq_refl).
    destruct (time_sleep (sleep args) client1) as [[[]|e] client2].
    + destruct (process_shape args rest
                  (pairs ++ [(prompt, last_response client1)])
                  (sent ++ [mkRequest prompt (Ok (py "Success"))
                              (last_response client1)])
                  client2
                  (logger INFO (py "Sending prompt: " ++ prompt) w))
        as (reqs & _ & -> & _).
      eexists. by rewrite <- app_assoc.
    + exists []. done.
Qed.

End Loop_claims.

(** *** The loop on scripted runs *)




Lemma no_pairs_no_writer_witness :
  prompt_response_pairs
    (process (default_args "txt") [py "a"; py "b"]
       (mkScript [] [(Ok (py "Error: quota"), [])] []) empty_world) = []
  ∧ ∃ w',
      (∀ writer,
         run_and_save (default_args "txt") writer [py "a"; py "b"]
           (mkScript [] [(Ok (py "Error: quota"), [])] []) empty_world
         = Ok w')
      ∧ fs w' = ∅.
Proof.
  split; [vm_compute; reflexivity|].
  destruct (no_pairs_no_writer (default_args "txt") [py "a"; py "b"]
              (mkScript [] [(Ok (py "Error: quota"), [])] []) empty_world)
    as (w' & Hany & Hfs & _).
  - vm_compute. reflexivity.
  - intros e. vm_compute. discriminate.
  - exists w'. split; [exact Hany | exact Hfs].
Defined.

Lemma success_iff_exact_witness :
  ∃ more,
    prompt_response_pairs
      (process_from (default_args "txt") [py "What is 2+2?"] [] []
         (mkScript [] [(Ok (py "Success"), py "4")] []) empty_world)
    = [] ++ (py "What is 2+2?", py "4") :: more.
Proof.
  refine (proj2 (proj1 (success_iff_exact (default_args "txt")
                          (py "What is 2+2?") [] [] []
                          (mkScript [] [(Ok (py "Success"), py "4")] [])
                          empty_world (py "Success")
                          (mkScript (py "4") [] []) _)) _);
    reflexivity.
Defined.

(** The comparison is exact: another capitalisation, or the answer itself
    as return value, is a failure. *)
Example lowercase_success_is_failure :
  exit (process (default_args "txt") [py "p"; py "q"]
          (mkScript [] [(Ok (py "success"), py "4");
                        (Ok (py "Success"), py "5")] []) empty_world)
  = Break
  ∧ prompt_response_pairs
      (process (default_args "txt") [py "p"; py "q"]
         (mkScript [] [(Ok (py "success"), py "4");
                       (Ok (py "Success"), py "5")] []) empty_world) = [].
Proof. split; vm_compute; reflexivity. Qed.

(** ** Reading the written files back *)











Section Round_trip.

Context `{Platform}.


End Round_trip.


(** * Further properties of the code *)

(** ** What a prompt file yields *)

Lemma Forall_lstrip (P : N → Prop) (x : pystr) :
  Forall P x → Forall P (lstrip x).
Proof.
  induction 1 as [|c x Hc Hx IH]; simpl; [done|].
  destruct (isspace c); [exact IH | by constructor].
Qed.

Lemma Forall_strip (P : N → Prop) (x : pystr) :
  Forall P x → Forall P (strip x).
Proof.
  intros Hx. unfold strip, rstrip.
  apply Forall_rev, Forall_lstrip, Forall_rev, Forall_lstrip, Hx.
Qed.

Lemma split_on_pieces (P : N → Prop) (sep : N) (s : pystr) :
  Forall P s → Forall (Forall P) (split_on sep s).
Proof.
  induction 1 as [|c r Hc Hr IH]; simpl; [by repeat constructor|].
  destruct (c =? sep); [by constructor|].
  destruct (split_on sep r) as [|l ls]; [by repeat constructor|].
  inversion IH; subst. constructor; [by constructor | done].
Qed.

Lemma split_on_no_sep (sep : N) (s : pystr) :
  Forall (Forall (λ c, c ≠ sep)) (split_on sep s).
Proof.
  induction s as [|c r IH]; simpl; [by repeat constructor|].
  destruct (c =? sep) eqn:C; [by constructor|].
  apply N.eqb_neq in C.
  destruct (split_on sep r) as [|l ls]; [by repeat constructor|].
  inversion IH; subst. constructor; [by constructor | done].
Qed.

Lemma universal_newlines_no_CR (s : pystr) :
  Forall (λ c, c ≠ CR) (universal_newlines s).
Proof.
  assert (∀ n s, (length s ≤ n)%nat →
                 Forall (λ c, c ≠ CR) (universal_newlines s)) as Hn.
  { clear s. induction n as [|n IH]; intros [|c r] Hlen;
      try (simpl in Hlen; lia); try by constructor.
    simpl in Hlen. cbn [universal_newlines].
    destruct (c =? CR) eqn:C.
    - destruct r as [|d r']; [by repeat constructor|].
      destruct (d =? LF); constructor; try done; apply IH; simpl in *; lia.
    - apply N.eqb_neq in C. constructor; [done|]. apply IH. lia. }
  by apply (Hn (length s)).
Qed.

Lemma Forall_and_lines (P Q : N → Prop) (ls : list pystr) :
  Forall (Forall P) ls → Forall (Forall Q) ls →
  Forall (Forall (λ c, P c ∧ Q c)) ls.
Proof.
  induction 1 as [|l ls Hl _ IH]; intros HQ; [done|].
  inversion HQ; subst. constructor; [|by apply IH].
  apply Forall_and. done.
Qed.

Lemma strip_lines_tidy (raw : pystr) :
  Forall (λ p, tidy p ∧ blank p = false)
    (strip_lines (iter_lines (universal_newlines raw))).
Proof.
  rewrite strip_lines_iter_lines.
  pose proof (trimmed_nonblank_lines_clean (universal_newlines raw)) as Hclean.
  pose proof (Forall_and_lines _ _ _
                (split_on_no_sep LF (universal_newlines raw))
                (split_on_pieces _ LF _ (universal_newlines_no_CR raw)))
    as Hchars.
  unfold trimmed_nonblank_lines in *.
  apply List.Forall_forall. intros p Hp.
  rewrite List.Forall_forall in Hclean. destruct (Hclean p Hp) as [Hs Hb].
  apply List.filter_In in Hp as [Hin Ht].
  apply List.in_map_iff in Hin as (l & <- & Hl).
  rewrite List.Forall_forall in Hchars.
  split; [|exact Hb]. split; [by destruct (strip l)|].
  split; [exact Hs|]. apply Forall_strip, Hchars, Hl.
Qed.

(** X1. Every prompt read from a file is tidy: not empty, not blank,
    unchanged by another [strip], and without a line feed or a carriage
    return inside. *)
Theorem load_prompts_file_tidy (PROMPTS : list pystr) (w : World)
    (path : pystr) (prompts : list pystr) :
  truthy path = true →
  load_prompts PROMPTS w (Some path) = Ok prompts →
  Forall (λ p, tidy p ∧ blank p = false) prompts.
Proof.
  intros Hpath. unfold load_prompts. rewrite Hpath.
  unfold open_r. rewrite Hpath.
  destruct (fs w !! path) as [raw|]; [|done]. intros [= <-].
  apply strip_lines_tidy.
Qed.

Lemma load_prompts_file_tidy_witness :
  Forall (λ p, tidy p ∧ blank p = false) [py "a"; py "b"].
Proof.
  exact (load_prompts_file_tidy [] prompt_file_world (py "prompts.txt")
           [py "a"; py "b"] eq_refl eq_refl).
Defined.

Lemma universal_newlines_cons (c : N) (r : pystr) :
  universal_newlines (c :: r)
  = if c =? CR then
      match r with
      | d :: r' => if d =? LF then LF :: universal_newlines r'
                   else LF :: universal_newlines r
      | [] => [LF]
      end
    else c :: universal_newlines r.
Proof. reflexivity. Qed.

Lemma iter_lines_cons (c : N) (r : pystr) :
  iter_lines (c :: r)
  = if c =? LF then [c] :: iter_lines r
    else match iter_lines r with
         | [] => [[c]]
         | l :: ls => (c :: l) :: ls
         end.
Proof. reflexivity. Qed.

Lemma universal_newlines_app (p rest : pystr) :
  Forall (λ c, c ≠ LF ∧ c ≠ CR) p →
  universal_newlines (p ++ rest) = p ++ universal_newlines rest.
Proof.
  induction 1 as [|c p [_ Hc] _ IH]; [done|].
  rewrite <- !app_comm_cons, universal_newlines_cons.
  apply N.eqb_neq in Hc. by rewrite Hc, IH.
Qed.

(** A terminator is read as one line feed when the text after it does not
    start with a line feed. *)
Lemma universal_newlines_eol (n : newline) (rest : pystr) :
  match rest with c :: _ => c ≠ LF | [] => True end →
  universal_newlines (eol n ++ rest) = LF :: universal_newlines rest.
Proof.
  intros Hrest. destruct n; [done | done |].
  destruct rest as [|d r]; [done|].
  apply N.eqb_neq in Hrest.
  change (eol OldMac ++ d :: r) with (CR :: d :: r).
  rewrite universal_newlines_cons. change (CR =? CR) with true.
  cbv iota. by rewrite Hrest.
Qed.

Lemma iter_lines_line (p rest : pystr) :
  Forall (λ c, c ≠ LF ∧ c ≠ CR) p →
  iter_lines (p ++ LF :: rest) = (p ++ [LF]) :: iter_lines rest.
Proof.
  induction 1 as [|c p [Hc _] _ IH]; [done|].
  rewrite <- !app_comm_cons, iter_lines_cons.
  apply N.eqb_neq in Hc. by rewrite Hc, IH.
Qed.

Lemma iter_lines_last_line (p : pystr) :
  p ≠ [] → Forall (λ c, c ≠ LF ∧ c ≠ CR) p → iter_lines p = [p].
Proof.
  intros Hne Hp. induction Hp as [|c p [Hc _] Hp IH]; [done|].
  rewrite iter_lines_cons. apply N.eqb_neq in Hc. rewrite Hc.
  destruct p as [|d p]; [done|]. by rewrite IH.
Qed.

Lemma tidy_truthy (p : pystr) : tidy p → truthy (strip p) = true.
Proof. intros (Hne & -> & _). by destruct p. Qed.

Lemma text_of_lines_cons (p : pystr) (n : newline)
    (lines : list (pystr * newline)) (unterminated : option pystr) :
  text_of_lines ((p, n) :: lines) unterminated
  = p ++ eol n ++ text_of_lines lines unterminated.
Proof. unfold text_of_lines. simpl. by rewrite <- !app_assoc. Qed.

Lemma text_of_lines_start (lines : list (pystr * newline))
    (unterminated : option pystr) :
  Forall (λ l, tidy l.1) lines →
  (∀ p, unterminated = Some p → tidy p) →
  match text_of_lines lines unterminated with
  | c :: _ => c ≠ LF
  | [] => True
  end.
Proof.
  intros Hlines Hlast. unfold text_of_lines.
  destruct Hlines as [|[p n] lines (Hne & _ & Hp) _].
  - destruct unterminated as [p|]; [|done].
    destruct (Hlast p eq_refl) as (Hne & _ & Hp).
    destruct p as [|c p']; [done|].
    inversion Hp as [|? ? [Hc _] _]; subst. exact Hc.
  - simpl in *. destruct p as [|c p']; [done|].
    inversion Hp as [|? ? [Hc _] _]; subst. exact Hc.
Qed.

Lemma strip_lines_text_of_lines (lines : list (pystr * newline))
    (unterminated : option pystr) :
  Forall (λ l, tidy l.1) lines →
  (∀ p, unterminated = Some p → tidy p) →
  strip_lines
    (iter_lines (universal_newlines (text_of_lines lines unterminated)))
  = map fst lines ++ option_list unterminated.
Proof.
  intros Hlines Hlast.
  induction Hlines as [|[p n] lines Hp Hlines IH].
  - unfold text_of_lines. simpl.
    destruct unterminated as [p|]; [|done].
    destruct (Hlast p eq_refl) as (Hne & Hs & Hchars). simpl.
    pose proof (universal_newlines_app p [] Hchars) as Hun.
    rewrite !app_nil_r in Hun. rewrite Hun.
    rewrite (iter_lines_last_line p Hne Hchars). simpl.
    rewrite Hs. by destruct p.
  - pose proof (text_of_lines_start lines unterminated Hlines Hlast)
      as Hstart.
    rewrite text_of_lines_cons.
    simpl in Hp. destruct Hp as (Hne & Hs & Hchars).
    rewrite (universal_newlines_app _ _ Hchars).
    rewrite (universal_newlines_eol n _ Hstart).
    rewrite (iter_lines_line p _ Hchars).
    cbn [strip_lines map fst app].
    rewrite (strip_snoc_space p LF isspace_LF), Hs.
    destruct p as [|c p]; [done|]. cbn [truthy]. by rewrite IH.
Qed.

(** X2. A file given line by line, every line a tidy prompt followed by
    "\n", "\r\n" or "\r" (the last line possibly without terminator), is
    loaded as exactly these prompts, in order: which terminators are in
    use does not matter. *)
Theorem load_prompts_lines (PROMPTS : list pystr) (w : World) (path : pystr)
    (lines : list (pystr * newline)) (unterminated : option pystr) :
  truthy path = true →
  fs w !! path = Some (text_of_lines lines unterminated) →
  Forall (λ l, tidy l.1) lines →
  (∀ p, unterminated = Some p → tidy p) →
  load_prompts PROMPTS w (Some path)
  = Ok (map fst lines ++ option_list unterminated).
Proof.
  intros Hpath Hfile Hlines Hlast.
  unfold load_prompts, open_r. rewrite Hpath, Hfile. f_equal.
  by apply strip_lines_text_of_lines.
Qed.

Lemma load_prompts_lines_witness :
  load_prompts []
    (mkWorld {[ py "p.txt" :=
                text_of_lines [(py "What is 2+2?", Windows);
                               (py "Name a color", OldMac)]
                  (Some (py "last")) ]} [] [])
    (Some (py "p.txt"))
  = Ok [py "What is 2+2?"; py "Name a color"; py "last"].
Proof.
  refine (load_prompts_lines []
            (mkWorld {[ py "p.txt" :=
                        text_of_lines [(py "What is 2+2?", Windows);
                                       (py "Name a color", OldMac)]
                          (Some (py "last")) ]} [] [])
            (py "p.txt")
            [(py "What is 2+2?", Windows); (py "Name a color", OldMac)]
            (Some (py "last")) eq_refl _ _ _).
  - apply lookup_singleton_eq.
  - repeat constructor; try (cbv; discriminate).
  - intros p [= <-]. repeat constructor; cbv; discriminate.
Defined.

(** X16. Prompts loaded from a file, written one per line to another
    file, are loaded from it as the same prompts: loading is idempotent. *)
Theorem load_prompts_again (PROMPTS : list pystr) (w w' : World)
    (path path' : pystr) (prompts : list pystr) :
  truthy path = true →
  load_prompts PROMPTS w (Some path) = Ok prompts →
  truthy path' = true →
  fs w' !! path' = Some (text_of_lines (map (λ p, (p, Unix)) prompts) None) →
  load_prompts PROMPTS w' (Some path') = Ok prompts.
Proof.
  intros Hpath Hload Hpath' Hfile.
  assert (Forall (λ p, tidy p ∧ blank p = false) prompts) as Htidy.
  { revert Hload. unfold load_prompts, open_r. rewrite Hpath.
    destruct (fs w !! path) as [raw|]; [|done]. intros [= <-].
    apply strip_lines_tidy. }
  unfold load_prompts, open_r. rewrite Hpath', Hfile. f_equal.
  rewrite strip_lines_text_of_lines; [| |done].
  - simpl. rewrite app_nil_r, map_map. simpl. apply map_id.
  - apply Forall_map. simpl. eapply Forall_impl; [exact Htidy|].
    by intros p [Hp _].
Qed.

Lemma load_prompts_again_witness :
  load_prompts []
    (mkWorld {[ py "copy.txt" :=
                text_of_lines (map (λ p, (p, Unix)) [py "a"; py "b"]) None ]}
       [] [])
    (Some (py "copy.txt"))
  = Ok [py "a"; py "b"].
Proof.
  refine (load_prompts_again [] prompt_file_world
            (mkWorld {[ py "copy.txt" :=
                        text_of_lines (map (λ p, (p, Unix)) [py "a"; py "b"])
                          None ]} [] [])
            (py "prompts.txt") (py "copy.txt") [py "a"; py "b"]
            eq_refl eq_refl eq_refl _).
  apply lookup_singleton_eq.
Defined.

(** ** More on the output writer *)

Lemma blocks_app (block : pystr → pystr → pystr)
    (a b : list (pystr * pystr)) :
  blocks block (a ++ b) = blocks block a ++ blocks block b.
Proof. unfold blocks. apply List.flat_map_app. Qed.

Section Writer_more.

Context `{Platform}.

Lemma print_each_console (pairs : list (pystr * pystr)) (w : World) :
  print_each pairs w
  = match render_all (map (λ pair, stdout_block pair.1 pair.2) pairs) with
    | Ok outs => Ok (mkWorld (fs w) (log w) (console w ++ outs))
    | Raise e => Raise e
    end.
Proof.
  revert w. induction pairs as [|[p r] pairs IH]; intros w.
  - simpl. rewrite app_nil_r. by destruct w.
  - cbn [print_each map render_all fst snd]. unfold print.
    destruct (rich_render (stdout_block p r)) as [out|e]; [|done].
    rewrite IH. destruct (render_all _) as [outs|e]; [|done].
    cbn [fs log console]. by rewrite <- app_assoc.
Qed.

(** X3. In the stdout format the writer hands one string
    "## Prompt: p\n## Response: r\n" per pair to rich, in pair order. When
    rich renders them all, the console holds their renderings, each ended
    by a line feed, after what it held before, one INFO record is logged
    and no file is created or changed, whatever the file name; when rich
    refuses one of them, its exception leaves the writer. *)
Theorem save_responses_stdout
    (docx : list (pystr * pystr) → pystr → World → result World)
    (pairs : list (pystr * pystr)) (filename : pystr) (w : World) :
  save_responses docx pairs filename (py "stdout") w
  = match render_all (map (λ pair, stdout_block pair.1 pair.2) pairs) with
    | Ok outs =>
        Ok (mkWorld (fs w)
              (log w ++ [(INFO, py "Printing responses to stdout")])
              (console w ++ outs))
    | Raise e => Raise e
    end.
Proof.
  unfold save_responses. decide_format. by rewrite print_each_console.
Qed.

(** A write in the txt or md format that returns has found a destination
    it could open and only texts it could encode. *)
Lemma save_responses_inv
    (docx : list (pystr * pystr) → pystr → World → result World)
    (pairs : list (pystr * pystr)) (filename fmt : pystr) (w w1 : World) :
  fmt = py "txt" ∨ fmt = py "md" →
  save_responses docx pairs filename fmt w = Ok w1 →
  truthy filename = true ∧ open_writable filename = Ok tt
  ∧ forallb encodable_pair pairs = true.
Proof.
  intros Hfmt Hsave.
  assert (truthy filename = true ∧ open_writable filename = Ok tt)
    as [Hname Hdir].
  { destruct Hfmt as [-> | ->]; revert Hsave; unfold save_responses;
      decide_format; unfold open_w; destruct (truthy filename); try done;
      by destruct (open_writable filename) as [[]|]. }
  split; [done|]. split; [done|].
  destruct (save_responses_file docx pairs filename w Hname Hdir)
    as [Ht Hm].
  destruct Hfmt as [-> | ->].
  - rewrite Ht in Hsave. by destruct (forallb encodable_pair pairs).
  - rewrite Hm in Hsave. by destruct (forallb encodable_pair pairs).
Qed.

Lemma save_responses_fs
    (docx : list (pystr * pystr) → pystr → World → result World)
    (pairs : list (pystr * pystr)) (filename fmt : pystr) (w : World) :
  fmt = py "txt" ∨ fmt = py "md" →
  truthy filename = true →
  open_writable filename = Ok tt →
  forallb encodable_pair pairs = true →
  ∃ w1 text,
    save_responses docx pairs filename fmt w = Ok w1
    ∧ fs w1 = <[filename := text]> (fs w)
    ∧ console w1 = console w
    ∧ (fmt = py "txt" → text = blocks txt_block pairs)
    ∧ (fmt = py "md" → text = blocks md_block pairs).
Proof.
  intros Hfmt Hname Hdir Henc.
  destruct (save_responses_file docx pairs filename w Hname Hdir)
    as [Ht Hm].
  rewrite Henc in Ht, Hm.
  destruct Hfmt as [-> | ->].
  - eexists _, _. split; [exact Ht|]. by repeat split.
  - eexists _, _. split; [exact Hm|]. by repeat split.
Qed.

(** X4. When a write (txt or md) follows an earlier one to the same
    destination, and would return when made alone, it returns and leaves
    the files exactly as it would alone: the earlier content is gone,
    nothing is appended to it. *)
Theorem save_responses_twice
    (docx : list (pystr * pystr) → pystr → World → result World)
    (earlier later : list (pystr * pystr)) (filename fmt1 fmt2 : pystr)
    (w w1 w2' : World) :
  fmt1 = py "txt" ∨ fmt1 = py "md" →
  fmt2 = py "txt" ∨ fmt2 = py "md" →
  save_responses docx earlier filename fmt1 w = Ok w1 →
  save_responses docx later filename fmt2 w = Ok w2' →
  ∃ w2,
    save_responses docx later filename fmt2 w1 = Ok w2
    ∧ fs w2 = fs w2'.
Proof.
  intros Hf1 Hf2 Hfirst Halone.
  destruct (save_responses_inv _ _ _ _ _ _ Hf1 Hfirst)
    as (Hname & Hdir & Henc1).
  destruct (save_responses_inv _ _ _ _ _ _ Hf2 Halone) as (_ & _ & Henc2).
  destruct (save_responses_fs docx earlier filename fmt1 w Hf1 Hname Hdir
              Henc1) as (v1 & t1 & Hv1 & Hfs1 & _).
  rewrite Hfirst in Hv1. injection Hv1 as <-.
  destruct (save_responses_fs docx later filename fmt2 w1 Hf2 Hname Hdir
              Henc2) as (w2 & t2 & Hw2 & Hfs2 & _ & Ht2 & Hm2).
  destruct (save_responses_fs docx later filename fmt2 w Hf2 Hname Hdir
              Henc2) as (v2 & t2' & Hv2 & Hfs2' & _ & Ht2' & Hm2').
  rewrite Halone in Hv2. injection Hv2 as <-.
  exists w2. split; [exact Hw2|].
  rewrite Hfs2, Hfs2', Hfs1, insert_insert_eq.
  destruct Hf2 as [Hf|Hf]; by rewrite ?(Ht2 Hf), ?(Ht2' Hf), ?(Hm2 Hf),
    ?(Hm2' Hf).
Qed.

(** X5. When the write (txt or md) of some pairs followed by more pairs
    returns, so does the write of the first pairs alone, and the file it
    leaves is the beginning of the other: a partial result is saved as a
    prefix of the full one. *)
Theorem save_responses_prefix
    (docx : list (pystr * pystr) → pystr → World → result World)
    (pairs more : list (pystr * pystr)) (filename fmt : pystr)
    (w w2 : World) :
  fmt = py "txt" ∨ fmt = py "md" →
  save_responses docx (pairs ++ more) filename fmt w = Ok w2 →
  ∃ w1 text tail,
    save_responses docx pairs filename fmt w = Ok w1
    ∧ fs w1 !! filename = Some text
    ∧ fs w2 !! filename = Some (text ++ tail)
    ∧ (more = [] → tail = []).
Proof.
  intros Hfmt Hfull.
  destruct (save_responses_inv _ _ _ _ _ _ Hfmt Hfull)
    as (Hname & Hdir & Henc).
  assert (forallb encodable_pair pairs = true) as Henc1.
  { rewrite forallb_app in Henc. by apply andb_true_iff in Henc as [? _]. }
  destruct (save_responses_fs docx pairs filename fmt w Hfmt Hname Hdir
              Henc1) as (w1 & t1 & Hw1 & Hfs1 & _ & Ht1 & Hm1).
  destruct (save_responses_fs docx (pairs ++ more) filename fmt w Hfmt
              Hname Hdir Henc) as (v2 & t2 & Hv2 & Hfs2 & _ & Ht2 & Hm2).
  rewrite Hfull in Hv2. injection Hv2 as <-.
  destruct Hfmt as [Hf|Hf].
  - exists w1, t1, (blocks txt_block more). split; [exact Hw1|].
    rewrite Hfs1, Hfs2, !lookup_insert_eq, (Ht1 Hf), (Ht2 Hf), blocks_app.
    repeat split. by intros ->.
  - exists w1, t1, (blocks md_block more). split; [exact Hw1|].
    rewrite Hfs1, Hfs2, !lookup_insert_eq, (Hm1 Hf), (Hm2 Hf), blocks_app.
    repeat split. by intros ->.
Qed.

(** X17. A write in the txt or md format raises, and returns no world,
    in three cases: FileNotFoundError for an empty file name; the
    exception of [open] when the destination cannot be opened (a missing
    directory); UnicodeEncodeError when the destination is open and a
    prompt or a response holds a character UTF-8 cannot encode (a lone
    surrogate). *)
Theorem save_responses_raises
    (docx : list (pystr * pystr) → pystr → World → result World)
    (pairs : list (pystr * pystr)) (filename fmt : pystr) (w : World) :
  fmt = py "txt" ∨ fmt = py "md" →
  (truthy filename = false →
   save_responses docx pairs filename fmt w = Raise FileNotFoundError)
  ∧ (∀ e, truthy filename = true → open_writable filename = Raise e →
          save_responses docx pairs filename fmt w = Raise e)
  ∧ (truthy filename = true → open_writable filename = Ok tt →
     forallb encodable_pair pairs = false →
     save_responses docx pairs filename fmt w = Raise UnicodeEncodeError).
Proof.
  intros Hfmt. split; [|split].
  - intros Hname. destruct Hfmt as [-> | ->]; unfold save_responses;
      decide_format; unfold open_w; by rewrite Hname.
  - intros e Hname Hdir. destruct Hfmt as [-> | ->]; unfold save_responses;
      decide_format; unfold open_w; by rewrite Hname, Hdir.
  - intros Hname Hdir Henc.
    destruct (save_responses_file docx pairs filename w Hname Hdir)
      as [Ht Hm].
    rewrite Henc in Ht, Hm. by destruct Hfmt as [-> | ->].
Qed.

End Writer_more.

Lemma save_responses_twice_witness :
  ∃ w2,
    save_responses no_docx [(py "q", py "new")] (py "out") (py "md")
      (mkWorld {[ py "out" := blocks txt_block [(py "p", py "old")] ]}
         [(INFO, py "Saving responses to " ++ py "out"
                 ++ py " in TXT format")] [])
    = Ok w2
    ∧ fs w2 = {[ py "out" := blocks md_block [(py "q", py "new")] ]}.
Proof.
  refine (save_responses_twice no_docx [(py "p", py "old")]
            [(py "q", py "new")] (py "out") (py "txt") (py "md")
            empty_world _
            (mkWorld {[ py "out" := blocks md_block [(py "q", py "new")] ]}
               [(INFO, py "Saving responses to " ++ py "out"
                       ++ py " in Markdown format")] [])
            (or_introl eq_refl) (or_intror eq_refl) _ _);
    vm_compute; reflexivity.
Defined.

Lemma save_responses_prefix_witness :
  ∃ w1 text tail,
    save_responses no_docx [(py "p", py "r")] (py "out") (py "txt")
      empty_world = Ok w1
    ∧ fs w1 !! py "out" = Some text
    ∧ fs (mkWorld
            {[ py "out" := blocks txt_block
                             [(py "p", py "r"); (py "q", py "s")] ]}
            [(INFO, py "Saving responses to " ++ py "out"
                    ++ py " in TXT format")] [])
      !! py "out" = Some (text ++ tail)
    ∧ ([(py "q", py "s")] = [] → tail = []).
Proof.
  refine (save_responses_prefix no_docx [(py "p", py "r")] [(py "q", py "s")]
            (py "out") (py "txt") empty_world _ (or_introl eq_refl) _).
  vm_compute. reflexivity.
Defined.

Lemma save_responses_raises_witness :
  save_responses no_docx [(py "p", py "r"); (py "q", [0xD83D])] (py "out")
    (py "txt") empty_world = Raise UnicodeEncodeError
  ∧ save_responses no_docx [(py "p", py "r")] (py "missing/out.md")
      (py "md") empty_world = Raise FileNotFoundError.
Proof.
  split.
  - refine (proj2 (proj2 (save_responses_raises no_docx
                            [(py "p", py "r"); (py "q", [0xD83D])] (py "out")
                            (py "txt") empty_world (or_introl eq_refl)))
              _ _ _); reflexivity.
  - refine (proj1 (proj2 (save_responses_raises no_docx [(py "p", py "r")]
                            (py "missing/out.md") (py "md") empty_world
                            (or_intror eq_refl)))
              FileNotFoundError _ _); reflexivity.
Defined.

(** ** More on the processing loop *)

Section Loop_effects.

Context `{Platform} `{Environment E}.
Variable args : Args.

Opaque py.

(** What the loop does to the world: one record per request, and the
    report of the failure when a request is answered with one. *)
Lemma process_from_world (prompts : list pystr) :
  ∀ (pairs : list (pystr * pystr)) (sent : list request) (client : E)
    (w : World),
  ∃ reqs,
    requests (process_from args prompts pairs sent client w) = sent ++ reqs
    ∧ ((Forall (λ q, ∀ v, req_result q = Ok v → v = py "Success") reqs
        ∧ world (process_from args prompts pairs sent client w)
          = mkWorld (fs w) (log w ++ map sending reqs) (console w))
       ∨ ∃ q v,
           last reqs = Some q ∧ req_result q = Ok v ∧ v ≠ py "Success"
           ∧ world (process_from args prompts pairs sent client w)
             = mkWorld (fs w)
                 (log w ++ map sending reqs
                  ++ [(ERROR, py "Error generating response for prompt: "
                              ++ req_prompt q);
                      (ERROR, py "Exiting due to error: " ++ v)])
                 (console w ++ failure_printed (req_prompt q) v)).
Proof.
  induction prompts as [|prompt rest IH]; intros pairs sent client w.
  - exists []. simpl. rewrite !app_nil_r. split; [done|]. left.
    split; [done|]. by destruct w.
  - simpl.
    destruct (get_response prompt (temperature args) (top_p args)
                (frequency_penalty args) (presence_penalty args) client)
      as [[response|e] client1] eqn:Hget.
    + destruct (bool_decide (response = py "Success")) eqn:Hok.
      * apply bool_decide_eq_true in Hok as Hyes.
        destruct (time_sleep (sleep args) client1)
          as [[[]|e] client2] eqn:Hsleep.
        -- destruct (IH (pairs ++ [(prompt, last_response client1)])
                       (sent ++ [mkRequest prompt (Ok response)
                                   (last_response client1)])
                       client2
                       (logger INFO (py "Sending prompt: " ++ prompt) w))
             as (reqs & Hreq & Hworld).
           exists (mkRequest prompt (Ok response) (last_response client1)
                   :: reqs).
           rewrite Hreq, <- app_assoc. split; [done|].
           destruct Hworld as [[Hall Hworld]|(q & v & Hlast & Hv & Hne & Hw)].
           ++ left. split.
              ** constructor; [|exact Hall]. simpl. by intros v [= <-].
              ** rewrite Hworld. simpl. by rewrite <- app_assoc.
           ++ right. exists q, v. split; [by destruct reqs|].
              split; [done|]. split; [done|].
              rewrite Hw. simpl. by rewrite <- !app_assoc.
        -- exists [mkRequest prompt (Ok response) (last_response client1)].
           split; [done|]. left. split; [|done].
           constructor; [|done]. simpl. by intros v [= <-].
      * apply bool_decide_eq_false in Hok as Hne.
        exists [mkRequest prompt (Ok response) (last_response client1)].
        split.
        { unfold print. destruct (rich_render (failure_banner prompt));
            [|done]. by destruct (rich_render (failure_detail response)). }
        right. eexists _, response. split; [done|]. split; [done|].
        split; [done|]. unfold print, failure_printed. simpl.
        destruct (rich_render (failure_banner prompt)) as [o1|e1];
          [destruct (rich_render (failure_detail response)) as [o2|e2]|];
          unfold sending, logger; simpl; rewrite <- ?app_assoc; simpl;
          by rewrite ?app_nil_r.
    + exists [mkRequest prompt (Raise e) (last_response client1)].
      split; [done|]. left. split; [|done]. by constructor.
Qed.

(** X6. When no request is answered with a failure, the loop only logs:
    one INFO record "Sending prompt: p" per request made, in the order of
    the requests; it hands nothing to [print] and creates or changes no
    file. *)
Theorem process_only_logs (prompts : list pystr) (client : E) (w : World) :
  Forall (λ q, ∀ v, req_result q = Ok v → v = py "Success")
    (requests (process args prompts client w)) →
  world (process args prompts client w)
  = mkWorld (fs w)
      (log w ++ map sending (requests (process args prompts client w)))
      (console w).
Proof.
  unfold process. intros Hall.
  destruct (process_from_world prompts [] [] client w)
    as (reqs & Hr & Hw).
  simpl in Hr. rewrite Hr in *.
  destruct Hw as [[_ Hw]|(q & v & Hlast & Hv & Hne & _)]; [exact Hw|].
  rewrite last_lookup in Hlast. rewrite Forall_lookup in Hall.
  destruct (Hne (Hall _ _ Hlast v Hv)).
Qed.

(** X7. When a request is answered with a value other than 'Success',
    the loop hands two ERROR records to the logger, with the prompt and
    with the value returned, after the records of the requests, and
    prints the same two messages: the console gains their renderings, up
    to the first one that rich refuses. Files are left as they were. *)
Theorem process_reports_failure (prompts : list pystr) (client : E)
    (w : World) (n : nat) (q : request) (v : pystr) :
  requests (process args prompts client w) !! n = Some q →
  req_result q = Ok v → v ≠ py "Success" →
  world (process args prompts client w)
  = mkWorld (fs w)
      (log w ++ map sending (requests (process args prompts client w))
       ++ [(ERROR, py "Error generating response for prompt: "
                   ++ req_prompt q);
           (ERROR, py "Exiting due to error: " ++ v)])
      (console w ++ failure_printed (req_prompt q) v).
Proof.
  intros Hq Hv Hne.
  unfold process in *.
  destruct (process_from_world prompts [] [] client w)
    as (reqs & Hr & Hw).
  simpl in Hr. rewrite Hr in *.
  destruct Hw as [[Hall _]|(q' & v' & Hlast & Hv' & Hne' & Hw)].
  - rewrite Forall_lookup in Hall. destruct (Hne (Hall _ _ Hq v Hv)).
  - destruct (process_run args prompts client w) as (_ & _ & Hfront & _).
    unfold process in Hfront. rewrite Hr in Hfront.
    assert (succeeded q = false) as Hfail.
    { unfold succeeded. rewrite Hv. by apply bool_decide_eq_false. }
    destruct (failure_is_last _ _ _ Hfront Hq Hfail) as [Hlen _].
    rewrite last_lookup, Hlen in Hlast. simpl in Hlast.
    rewrite Hq in Hlast. injection Hlast as <-.
    rewrite Hv in Hv'. injection Hv' as <-. exact Hw.
Qed.

(** How the loop is left when a request is answered with a failure. *)
Lemma exit_of_failure (prompts : list pystr) (client : E) (w : World)
    (n : nat) (q : request) (v : pystr) :
  requests (process args prompts client w) !! n = Some q →
  req_result q = Ok v → v ≠ py "Success" →
  exit (process args prompts client w)
  = match rich_render (failure_banner (req_prompt q)) with
    | Raise e => Raised e
    | Ok _ =>
        match rich_render (failure_detail v) with
        | Raise e => Raised e
        | Ok _ => Break
        end
    end.
Proof.
  intros Hq Hv Hne.
  destruct (process_run args prompts client w)
    as (_ & _ & Hfront & _ & Hexit).
  assert (succeeded q = false) as Hfail.
  { unfold succeeded. rewrite Hv. by apply bool_decide_eq_false. }
  destruct (failure_is_last _ _ _ Hfront Hq Hfail) as [Hlen _].
  assert (last (requests (process args prompts client w)) = Some q)
    as Hlast by (rewrite last_lookup, Hlen; exact Hq).
  destruct (exit _) as [| |e].
  - destruct Hexit as [_ Hall]. rewrite Forall_lookup in Hall.
    rewrite (Hall _ _ Hq) in Hfail. done.
  - destruct Hexit as (q' & v' & o1 & o2 & Hlast' & Hv' & _ & H1 & H2).
    rewrite Hlast in Hlast'. injection Hlast' as <-.
    rewrite Hv in Hv'. injection Hv' as <-. by rewrite H1, H2.
  - destruct Hexit as (q' & Hlast' & Hq').
    rewrite Hlast in Hlast'. injection Hlast' as <-.
    destruct Hq' as [Hq'|[Hq'|(v' & Hv' & _ & Hr)]]; [congruence ..|].
    rewrite Hv in Hv'. injection Hv' as <-.
    destruct Hr as [H1|(o1 & H1 & H2)]; by rewrite H1, ?H2.
Qed.

(** X18. When a request is answered with a failure and rich refuses one
    of the two strings printed for it (a prompt or a returned value with
    a closing tag that closes nothing raises MarkupError), the exception
    is not caught: the run raises it, whatever the writer, and the pairs
    collected before are not saved. *)
Theorem markup_error_propagates
    (writer : list (pystr * pystr) → pystr → pystr → World → result World)
    (prompts : list pystr) (client : E) (w : World) (n : nat) (q : request)
    (v : pystr) (e : exn) :
  requests (process args prompts client w) !! n = Some q →
  req_result q = Ok v → v ≠ py "Success" →
  rich_render (failure_banner (req_prompt q)) = Raise e
  ∨ (∃ o1, rich_render (failure_banner (req_prompt q)) = Ok o1
           ∧ rich_render (failure_detail v) = Raise e) →
  e ≠ KeyboardInterrupt →
  run_and_save args writer prompts client w = Raise e.
Proof.
  intros Hq Hv Hne Hrich He.
  pose proof (exit_of_failure prompts client w n q v Hq Hv Hne) as Hexit.
  unfold run_and_save.
  destruct Hrich as [H1|(o1 & H1 & H2)]; rewrite H1, ?H2 in Hexit;
    rewrite Hexit; by destruct e.
Qed.

Transparent py.

End Loop_effects.

Lemma process_only_logs_witness :
  world (process (default_args "txt") [py "p1"; py "p2"]
           (mkScript [] [(Ok (py "Success"), py "r1");
                         (Raise KeyboardInterrupt, [])] [])
           empty_world)
  = mkWorld ∅
      ([] ++ map sending
               (requests
                  (process (default_args "txt") [py "p1"; py "p2"]
                     (mkScript [] [(Ok (py "Success"), py "r1");
                                   (Raise KeyboardInterrupt, [])] [])
                     empty_world)))
      [].
Proof.
  refine (process_only_logs (default_args "txt") [py "p1"; py "p2"]
            (mkScript [] [(Ok (py "Success"), py "r1");
                          (Raise KeyboardInterrupt, [])] [])
            empty_world _).
  vm_compute. repeat constructor; intros v [= <-]; reflexivity.
Defined.

Lemma process_reports_failure_witness :
  console
    (world (process (default_args "txt") [py "p1"; py "p2"]
              (mkScript [] [(Ok (py "Success"), py "r1");
                            (Ok (py "Error: quota"), [])] [])
              empty_world))
  = [py "Error generating response for prompt: p2" ++ [LF];
     py "Exiting due to error: Error: quota" ++ [LF]].
Proof.
  refine (f_equal console
            (process_reports_failure (default_args "txt") [py "p1"; py "p2"]
               (mkScript [] [(Ok (py "Success"), py "r1");
                             (Ok (py "Error: quota"), [])] [])
               empty_world 1
               (mkRequest (py "p2") (Ok (py "Error: quota")) [])
               (py "Error: quota") _ _ _)).
  - vm_compute. reflexivity.
  - reflexivity.
  - vm_compute. discriminate.
Defined.

Lemma markup_error_propagates_witness :
  run_and_save (default_args "txt") (save_responses no_docx)
    [py "p1"; py "p2"; py "p3"]
    (mkScript [] [(Ok (py "Success"), py "r1");
                  (Ok (py "stopped at [/INST]"), [])] [])
    empty_world
  = Raise MarkupError.
Proof.
  refine (markup_error_propagates (default_args "txt")
            (save_responses no_docx) [py "p1"; py "p2"; py "p3"]
            (mkScript [] [(Ok (py "Success"), py "r1");
                          (Ok (py "stopped at [/INST]"), [])] [])
            empty_world 1
            (mkRequest (py "p2") (Ok (py "stopped at [/INST]")) [])
            (py "stopped at [/INST]") MarkupError _ _ _ _ _).
  - vm_compute. reflexivity.
  - reflexivity.
  - vm_compute. discriminate.
  - right. eexists. split; vm_compute; reflexivity.
  - discriminate.
Defined.

Section Loop_edges.

Context `{Platform} `{Environment E}.
Variable args : Args.

Opaque py.

(** X8. With a negative sleep time, a first request that succeeds is
    followed by the exception of [time.sleep], which [main] does not
    catch: ValueError, or OverflowError when the length is beyond what
    the time of C can hold. The run raises, whatever the writer, and the
    pair just obtained is not saved. *)
Theorem negative_sleep_raises
    (writer : list (pystr * pystr) → pystr → pystr → World → result World)
    (prompt : pystr) (rest : list pystr) (client client1 : E) (w : World) :
  (sleep args < 0)%Z →
  get_response prompt (temperature args) (top_p args)
    (frequency_penalty args) (presence_penalty args) client
  = (Ok (py "Success"), client1) →
  prompt_response_pairs (process args (prompt :: rest) client w)
  = [(prompt, last_response client1)]
  ∧ run_and_save args writer (prompt :: rest) client w
    = Raise (if (sleep args <? - PyTime_MAX_seconds)%Z
             then OverflowError else ValueError).
Proof.
  intros Hneg Hget.
  unfold run_and_save, process. cbn [process_from]. rewrite Hget.
  rewrite (bool_decide_eq_true_2 _ eq_refl).
  unfold time_sleep.
  replace (PyTime_MAX_seconds <? sleep args)%Z with false
    by (symmetry; apply Z.ltb_ge; unfold PyTime_MAX_seconds; lia).
  rewrite orb_false_r.
  destruct (sleep args <? - PyTime_MAX_seconds)%Z; [done|].
  apply Z.ltb_lt in Hneg. by rewrite Hneg.
Qed.

(** X9. When the sleep time is between 0 and what the time of C can
    hold, the client always returns, no sleep is interrupted, and rich
    renders the two strings of every failure the client can answer to one
    of the prompts, the loop raises nothing: it is left at the end of the
    prompts or by [break]. *)
Theorem process_raises_nothing (prompts : list pystr) (client : E)
    (w : World) :
  (0 ≤ sleep args ≤ PyTime_MAX_seconds)%Z →
  (∀ p a b c d e, ∃ v e', get_response p a b c d e = (Ok v, e')) →
  (∀ s e, ∃ e', wait s e = (Ok tt, e')) →
  (∀ p a b c d e v e',
     p ∈ prompts → get_response p a b c d e = (Ok v, e') →
     v ≠ py "Success" →
     (∃ o1, rich_render (failure_banner p) = Ok o1)
     ∧ (∃ o2, rich_render (failure_detail v) = Ok o2)) →
  exit (process args prompts client w) = Exhausted
  ∨ exit (process args prompts client w) = Break.
Proof.
  intros Hsleep Hclient Hwait Hrich. unfold process.
  generalize (@nil (pystr * pystr)) (@nil request).
  revert client w. induction prompts as [|prompt rest IH];
    intros client w pairs sent; [by left|].
  cbn [process_from].
  destruct (Hclient prompt (temperature args) (top_p args)
              (frequency_penalty args) (presence_penalty args) client)
    as (v & client1 & Hget).
  rewrite Hget.
  destruct (bool_decide (v = py "Success")) eqn:Hok.
  - unfold time_sleep.
    replace (sleep args <? - PyTime_MAX_seconds)%Z with false
      by (symmetry; apply Z.ltb_ge; unfold PyTime_MAX_seconds in *; lia).
    replace (PyTime_MAX_seconds <? sleep args)%Z with false
      by (symmetry; apply Z.ltb_ge; lia).
    replace (sleep args <? 0)%Z with false
      by (symmetry; apply Z.ltb_ge; lia).
    cbn [orb].
    destruct (Hwait (sleep args) client1) as (client2 & ->).
    apply IH. intros p a b c d e v' e' Hp. apply Hrich. by right.
  - apply bool_decide_eq_false in Hok.
    destruct (Hrich prompt _ _ _ _ _ _ _ (list_elem_of_here _ _) Hget Hok)
      as [[o1 H1] [o2 H2]].
    unfold print. rewrite H1, H2. by right.
Qed.

(** X10. An exception of the client other than KeyboardInterrupt is not
    caught: the run raises it, whatever the writer, and the pairs
    collected before it are not saved. *)
Theorem client_exception_propagates
    (writer : list (pystr * pystr) → pystr → pystr → World → result World)
    (prompts : list pystr) (client : E) (w : World) (n : nat) (q : request)
    (e : exn) :
  requests (process args prompts client w) !! n = Some q →
  req_result q = Raise e → e ≠ KeyboardInterrupt →
  run_and_save args writer prompts client w = Raise e.
Proof.
  intros Hq He Hne.
  destruct (process_run args prompts client w)
    as (_ & _ & Hfront & _ & Hexit).
  assert (succeeded q = false) as Hfail
    by (unfold succeeded; by rewrite He).
  destruct (failure_is_last _ _ _ Hfront Hq Hfail) as [Hlen _].
  assert (last (requests (process args prompts client w)) = Some q) as Hlast
    by (rewrite last_lookup, Hlen; exact Hq).
  unfold run_and_save.
  destruct (exit (process args prompts client w)) as [| |e'].
  - destruct Hexit as [_ Hall]. rewrite Forall_lookup in Hall.
    rewrite (Hall _ _ Hq) in Hfail. done.
  - destruct Hexit as (q' & v & o1 & o2 & Hlast' & Hv & _).
    rewrite Hlast in Hlast'. injection Hlast' as <-. congruence.
  - destruct Hexit as (q' & Hlast' & Hq').
    rewrite Hlast in Hlast'. injection Hlast' as <-.
    destruct Hq' as [Hq'|[Hq'|(v & Hv & _)]]; [|congruence ..].
    rewrite He in Hq'. injection Hq' as <-. by destruct e.
Qed.

(** X11. Whenever the last request made was a success, there is a pair
    for every request made, however the loop was left: a sleep cut short
    by Ctrl-C after a success does not lose the pair of that success. *)
Theorem last_success_keeps_all (prompts : list pystr) (client : E)
    (w : World) (q : request) :
  last (requests (process args prompts client w)) = Some q →
  req_result q = Ok (py "Success") →
  prompt_response_pairs (process args prompts client w)
  = map pair_of (requests (process args prompts client w)).
Proof.
  intros Hlast Hq.
  destruct (process_run args prompts client w) as (-> & _ & Hfront & _).
  f_equal. apply filter_all, Forall_lookup_2. intros i x Hx.
  destruct (decide (S i < length (requests (process args prompts client w)))%nat)
    as [Hi|Hi]; [by apply (Hfront i x Hx)|].
  pose proof (lookup_lt_Some _ _ _ Hx) as Hlt.
  rewrite last_lookup in Hlast.
  replace (pred (length (requests (process args prompts client w))))
    with i in Hlast by lia.
  rewrite Hx in Hlast. injection Hlast as ->. by apply succeeded_true.
Qed.

(** X12. Running the loop on prompts followed by more prompts is running
    it on the first ones and, if they are all processed, going on with
    the others from the state reached; if the first run is left early,
    the others are never looked at. *)
Theorem process_from_app (prompts more : list pystr) :
  ∀ (pairs : list (pystr * pystr)) (sent : list request) (client : E)
    (w : World),
  process_from args (prompts ++ more) pairs sent client w
  = match exit (process_from args prompts pairs sent client w) with
    | Exhausted =>
        process_from args more
          (prompt_response_pairs (process_from args prompts pairs sent client w))
          (requests (process_from args prompts pairs sent client w))
          (env (process_from args prompts pairs sent client w))
          (world (process_from args prompts pairs sent client w))
    | _ => process_from args prompts pairs sent client w
    end.
Proof.
  induction prompts as [|prompt rest IH]; intros pairs sent client w;
    [done|].
  rewrite <- app_comm_cons. cbn [process_from].
  destruct (get_response prompt (temperature args) (top_p args)
              (frequency_penalty args) (presence_penalty args) client)
    as [[response|e] client1]; [|done].
  destruct (bool_decide (response = py "Success")).
  - destruct (time_sleep (sleep args) client1) as [[[]|e] client2]; [|done].
    apply IH.
  - destruct (print (failure_banner prompt) _) as [w1|e1]; [|done].
    by destruct (print (failure_detail response) w1).
Qed.

(** X13. In every run the prompts sent are an initial segment of the
    input, in input order, and the pairs hold an initial segment of the
    prompts sent: the loop never skips, repeats or reorders a prompt, and
    it never makes more requests than there are prompts. *)
Theorem process_in_order (prompts : list pystr) (client : E) (w : World) :
  map req_prompt (requests (process args prompts client w))
  = take (length (requests (process args prompts client w))) prompts
  ∧ (length (requests (process args prompts client w)) ≤ length prompts)%nat
  ∧ map fst (prompt_response_pairs (process args prompts client w))
    = take (length (prompt_response_pairs (process args prompts client w)))
        prompts
  ∧ (length (prompt_response_pairs (process args prompts client w))
     ≤ length (requests (process args prompts client w)))%nat.
Proof.
  destruct (process_run args prompts client w)
    as (Hpairs & Hprompts & Hfront & _).
  pose proof (f_equal length Hprompts) as Hlen.
  rewrite length_map, length_take in Hlen.
  pose proof (successes_at_most (requests (process args prompts client w)))
    as Hle.
  pose proof (successes_first _ Hfront) as Hfirst.
  split; [exact Hprompts|]. split; [lia|].
  rewrite Hpairs, length_map. split; [|exact Hle].
  rewrite map_fst_pair_of, Hfirst at 1.
  rewrite <- List.firstn_map, Hprompts, take_take. f_equal. lia.
Qed.

Transparent py.

End Loop_edges.

Lemma negative_sleep_raises_witness :
  run_and_save
    (mkArgs (py "ai.ini") (-1) (py "out.txt") (py "txt") None false
       zero zero zero zero)
    (save_responses no_docx) [py "p1"; py "p2"]
    (mkScript [] [(Ok (py "Success"), py "r1")] []) empty_world
  = Raise ValueError.
Proof.
  refine (proj2 (negative_sleep_raises
                   (mkArgs (py "ai.ini") (-1) (py "out.txt") (py "txt") None
                      false zero zero zero zero)
                   (save_responses no_docx) (py "p1") [py "p2"]
                   (mkScript [] [(Ok (py "Success"), py "r1")] [])
                   (mkScript (py "r1") [] []) empty_world _ _)).
  - reflexivity.
  - reflexivity.
Defined.

(** A length below what the time of C can hold: the conversion fails
    before the sign is looked at. *)
Example far_negative_sleep_overflows :
  run_and_save
    (mkArgs (py "ai.ini") (-10000000000) (py "out.txt") (py "txt") None false
       zero zero zero zero)
    (save_responses no_docx) [py "p1"; py "p2"]
    (mkScript [] [(Ok (py "Success"), py "r1")] []) empty_world
  = Raise OverflowError.
Proof. reflexivity. Qed.

Lemma process_raises_nothing_witness :
  exit (process (default_args "txt") [py "p1"; py "fail"; py "p3"]
          (mkMirror []) empty_world) = Exhausted
  ∨ exit (process (default_args "txt") [py "p1"; py "fail"; py "p3"]
            (mkMirror []) empty_world) = Break.
Proof.
  refine (process_raises_nothing (default_args "txt")
            [py "p1"; py "fail"; py "p3"] (mkMirror []) empty_world
            _ _ _ _).
  - split; discriminate.
  - intros p a b c d e. cbn [get_response Mirror_env].
    destruct (bool_decide (p = py "fail")); eexists _, _; reflexivity.
  - intros s e. eexists. reflexivity.
  - intros p a b c d e v e' _ Hget Hne. cbn [get_response Mirror_env] in Hget.
    destruct (bool_decide (p = py "fail")) eqn:Hp.
    + apply bool_decide_eq_true in Hp as ->. injection Hget as <- _.
      split; eexists; vm_compute; reflexivity.
    + injection Hget as <- _. done.
Defined.

Lemma client_exception_propagates_witness :
  run_and_save (default_args "txt") (save_responses no_docx)
    [py "p1"; py "p2"; py "p3"]
    (mkScript [] [(Ok (py "Success"), py "r1");
                  (Raise (OtherException "ConnectionError"), [])] [])
    empty_world
  = Raise (OtherException "ConnectionError").
Proof.
  refine (client_exception_propagates (default_args "txt")
            (save_responses no_docx) [py "p1"; py "p2"; py "p3"]
            (mkScript [] [(Ok (py "Success"), py "r1");
                          (Raise (OtherException "ConnectionError"), [])] [])
            empty_world 1
            (mkRequest (py "p2") (Raise (OtherException "ConnectionError")) [])
            (OtherException "ConnectionError") _ _ _).
  - vm_compute. reflexivity.
  - reflexivity.
  - discriminate.
Defined.

Lemma last_success_keeps_all_witness :
  exit (process (default_args "txt") [py "p1"; py "p2"; py "p3"]
          (mkScript [] [(Ok (py "Success"), py "r1");
                        (Ok (py "Success"), py "r2")]
             [Ok tt; Raise KeyboardInterrupt])
          empty_world) = Raised KeyboardInterrupt
  ∧ prompt_response_pairs
      (process (default_args "txt") [py "p1"; py "p2"; py "p3"]
         (mkScript [] [(Ok (py "Success"), py "r1");
                       (Ok (py "Success"), py "r2")]
            [Ok tt; Raise KeyboardInterrupt])
         empty_world)
    = map pair_of
        (requests
           (process (default_args "txt") [py "p1"; py "p2"; py "p3"]
              (mkScript [] [(Ok (py "Success"), py "r1");
                            (Ok (py "Success"), py "r2")]
                 [Ok tt; Raise KeyboardInterrupt])
              empty_world)).
Proof.
  split; [vm_compute; reflexivity|].
  refine (last_success_keeps_all (default_args "txt")
            [py "p1"; py "p2"; py "p3"]
            (mkScript [] [(Ok (py "Success"), py "r1");
                          (Ok (py "Success"), py "r2")]
               [Ok tt; Raise KeyboardInterrupt])
            empty_world
            (mkRequest (py "p2") (Ok (py "Success")) (py "r2")) _ _).
  - vm_compute. reflexivity.
  - reflexivity.
Defined.

(** ** main as a whole *)

Section Main_facts.

Context `{Platform} `{Environment E}.
Variable args : Args.

Opaque py.



Variable PROMPTS : list pystr.
Variable docx : list (pystr * pystr) → pystr → World → result World.
Variable float_str : spec_float → pystr.

(** X14. When the prompt file named on the command line does not exist,
    [main] raises FileNotFoundError: the built-in prompts are not used
    instead, and the outcome is the same for every client, none being
    asked anything. *)
Theorem main_missing_prompt_file (client : E) (w : World) (path : pystr) :
  prompt_file args = Some path →
  truthy path = true →
  fs w !! path = None →
  main args PROMPTS docx float_str client w = Raise FileNotFoundError
  ∧ load_prompts PROMPTS w (Some path) = Raise FileNotFoundError.
Proof.
  intros Hfile Hpath Hnone.
  unfold main, load_prompts, open_r. rewrite Hfile, Hpath. simpl.
  by rewrite Hnone.
Qed.


Transparent py.

End Main_facts.

Lemma main_missing_prompt_file_witness :
  main (mkArgs (py "ai.ini") 1 (py "out.txt") (py "txt")
          (Some (py "missing.txt")) false zero zero zero zero)
    [py "built-in prompt"] no_docx (λ _, py "0.0")
    (mkScript [] [(Ok (py "Success"), py "r1")] []) prompt_file_world
  = Raise FileNotFoundError.
Proof.
  refine (proj1 (main_missing_prompt_file
                   (mkArgs (py "ai.ini") 1 (py "out.txt") (py "txt")
                      (Some (py "missing.txt")) false zero zero zero zero)
                   [py "built-in prompt"] no_docx (λ _, py "0.0")
                   (mkScript [] [(Ok (py "Success"), py "r1")] [])
                   prompt_file_world (py "missing.txt") eq_refl eq_refl _)).
  vm_compute. reflexivity.
Defined.

